(** * FireCrawlLoader: a shallow embedding of
      [langchain_community/document_loaders/firecrawl.py]

    The loader is a thin adapter around the [firecrawl] client: its
    constructor validates [mode] and [url] and resolves the API key, and
    [lazy_load] dispatches on [mode], performs one call on the client and
    turns every returned item into a [Document].

    Python values are embedded as the inductive type [value], dictionaries
    as [gmap string value], exceptions as the type [exn], and the calls on
    the client are recorded in a trace that is threaded through a small
    state-and-exception monad. *)

From Stdlib Require Import Ascii.
From stdpp Require Import base option list strings gmap fin_maps.

Open Scope string_scope.
Open Scope list_scope.

(** ** Python values *)

(** The dynamically typed values that flow through the loader: the
    contents of [params], the attributes of the objects the client
    returns, and the items [lazy_load] iterates over. [VObj] is an
    instance of some class, given by its attribute dictionary. *)
#[local] Set Warnings "-register-all".

Inductive value : Type :=
  | VNone
  | VBool (b : bool)
  | VInt (n : Z)
  | VStr (s : string)
  | VList (l : list value)
  | VDict (d : gmap string value)
  | VObj (attrs : gmap string value).

(** Python's truth value testing, as used by [or], [not] and [if]. *)
Definition truthy (v : value) : bool :=
  match v with
  | VNone => false
  | VBool b => b
  | VInt n => negb (n =? 0)%Z
  | VStr s => negb (String.eqb s "")
  | VList l => match l with [] => false | _ => true end
  | VDict d => negb (bool_decide (dom d = ∅))
  | VObj _ => true
  end.

(** [a or b] on values whose evaluation has no effect. *)
Definition py_or (a b : value) : value := if truthy a then a else b.

(** [getattr(o, name, default)]: only instances carry the attributes the
    loader asks for; on any other value the default is returned. *)
Definition getattr (o : value) (name : string) (dflt : value) : value :=
  match o with
  | VObj attrs => default dflt (attrs !! name)
  | _ => dflt
  end.

(** [str] values as their truth value: the empty string is false. *)
Definition nonempty (s : string) : bool := negb (String.eqb s "").

(** ** Exceptions and the loader's monad *)

(** The exception classes the loader raises or lets through;
    [ValueError] is the specification's InvalidArgument.
    [ValidationError] is what the constructor of a validated model
    raises on arguments of the wrong type. [ClientError] stands for what
    the client raises on its own (network, authentication, quota). *)
Inductive exn : Type :=
  | ImportError (msg : string)
  | ValueError (msg : string)
  | TypeError (msg : string)
  | ValidationError (msg : string)
  | ClientError (msg : string).

Inductive result (A : Type) : Type :=
  | Return (a : A)
  | Raise (e : exn).
Arguments Return {A} a.
Arguments Raise {A} e.

Definition is_ImportError (e : exn) : bool :=
  match e with ImportError _ => true | _ => false end.

(** The calls that leave the loader, with the arguments they receive:
    one constructor per operation of the [firecrawl] client. Keyword
    arguments are kept by name. *)
Inductive call : Type :=
  | FirecrawlApp_call (api_key : string) (api_url : option string)
  | scrape_url_call (url : string) (scrape_options : value)
  | crawl_url_call (url : string) (kwargs : gmap string value)
  | map_url_call (url : string) (params : gmap string value)
  | extract_call (urls : list string) (params : gmap string value)
  | search_call (query : value) (params : gmap string value).

(** A computation that may raise and that appends the calls it makes to
    the trace of recorded calls. *)
Definition M (A : Type) : Type := list call → result A * list call.

#[export] Instance M_ret : MRet M := λ A a tr, (Return a, tr).

#[export] Instance M_bind : MBind M := λ A B f m tr,
  match m tr with
  | (Return a, tr') => f a tr'
  | (Raise e, tr') => (Raise e, tr')
  end.

Definition raise {A : Type} (e : exn) : M A := λ tr, (Raise e, tr).

(** Perform a call on the outside: record it, then continue with the
    outcome the callee produced. *)
Definition perform {A : Type} (c : call) (outcome : result A) : M A :=
  λ tr, (outcome, tr ++ [c]).

(** Lift a computation without calls. *)
Definition lift {A : Type} (r : result A) : M A := λ tr, (r, tr).

(** [try: body except ImportError: handler] *)
Definition try_except_ImportError {A : Type} (body handler : M A) : M A :=
  λ tr,
    match body tr with
    | (Raise e, tr') => if is_ImportError e then handler tr' else (Raise e, tr')
    | ok => ok
    end.

(** ** The outside world: the [firecrawl] package and the environment *)

(** The response object of [crawl_url]; [data] is [None] when the object
    has no such attribute. *)
Record CrawlResponse : Type := { data : option (list value) }.

(** An instance of the client. Each operation maps the arguments it
    receives to what it returns or raises. [map_url] and [search] return
    the list the loader iterates over; [str_result] is [str] on what
    [extract] returns. *)
Record FirecrawlApp : Type := {
  scrape_url : string → value → result value;
  crawl_url : string → gmap string value → result CrawlResponse;
  map_url : string → gmap string value → result (list value);
  extract : list string → gmap string value → result value;
  str_result : value → string;
  search : value → gmap string value → result (list value);
}.

(** What [from firecrawl import ...] finds. [ScrapeOptions] is [None] in
    a version of the package that does not export the name; otherwise it
    is the class, called with the keyword arguments of its constructor. *)
Record firecrawl_package : Type := {
  new_FirecrawlApp : string → option string → result FirecrawlApp;
  ScrapeOptions : option (gmap string value → result value);
}.

(** [firecrawl] is [None] when the package is not installed; [environ]
    is [os.environ]. *)
Record world : Type := {
  firecrawl : option firecrawl_package;
  environ : gmap string string;
}.

Definition nl : string := String "010"%char "".

(** [langchain_core.utils.get_from_env(key, env_key, default)], the
    helper the constructor imports: the value of the environment variable
    when it is set and not empty, else the default when one is given,
    else a [ValueError]. *)
Definition get_from_env (w : world) (key env_key : string)
    (dflt : option string) : result string :=
  match environ w !! env_key with
  | Some env_value =>
      if nonempty env_value then Return env_value
      else match dflt with
           | Some d => Return d
           | None =>
               Raise (ValueError ("Did not find " +:+ key +:+
                 ", please add an environment variable `" +:+ env_key +:+
                 "` which contains it, or pass `" +:+ key +:+
                 "` as a named parameter."))
           end
  | None =>
      match dflt with
      | Some d => Return d
      | None =>
          Raise (ValueError ("Did not find " +:+ key +:+
            ", please add an environment variable `" +:+ env_key +:+
            "` which contains it, or pass `" +:+ key +:+
            "` as a named parameter."))
      end
  end.

(** ** The loader *)

Record FireCrawlLoader : Type := {
  app : FirecrawlApp;       (* self.firecrawl *)
  url : string;
  mode : string;
  params : gmap string value;
}.

(** The tuple the constructor tests [mode] against (line 101). *)
Definition init_modes : list string :=
  ["crawl"; "scrape"; "search"; "map"; "extract"; "search"].

(** The five modes [lazy_load] has a branch for. *)
Definition modes : list string :=
  ["scrape"; "crawl"; "map"; "extract"; "search"].

(** [FireCrawlLoader.__init__] (lines 67-114). [api_key], [api_url] and
    [params] are the optional keyword arguments, [None] by default. *)
Definition __init__ (w : world) (url : string) (api_key api_url : option string)
    (mode : string) (params : option (gmap string value)) : M FireCrawlLoader :=
  match firecrawl w with
  | None =>
      raise (ImportError
        "`firecrawl` package not found, please run `pip install firecrawl-py`")
  | Some pkg =>
      if bool_decide (mode ∉ init_modes) then
        raise (ValueError ("Invalid mode '" +:+ mode +:+ "'." +:+ nl +:+
          "                Allowed: 'crawl', 'scrape', 'search', 'map', 'extract', 'search'."))
      else if negb (nonempty url) then
        raise (ValueError "Url must be provided")
      else
        api_key ← (match api_key with
                   | Some k =>
                       if nonempty k then mret k
                       else lift (get_from_env w "api_key" "FIRECRAWL_API_KEY" None)
                   | None => lift (get_from_env w "api_key" "FIRECRAWL_API_KEY" None)
                   end : M string);
        client ← perform (FirecrawlApp_call api_key api_url)
                         (new_FirecrawlApp pkg api_key api_url);
        mret {| app := client; url := url; mode := mode;
                params := match params with
                          | Some p => if bool_decide (dom p = ∅) then ∅ else p
                          | None => ∅
                          end |}
  end.

(** [from firecrawl import ScrapeOptions], at the time [lazy_load] runs. *)
Definition import_ScrapeOptions (w : world) : M (gmap string value → result value) :=
  match firecrawl w with
  | None => raise (ImportError "No module named 'firecrawl'")
  | Some pkg =>
      match ScrapeOptions pkg with
      | None => raise (ImportError "cannot import name 'ScrapeOptions' from 'firecrawl'")
      | Some cls => mret cls
      end
  end.

(** Unpacking [v] into keyword arguments: [v] has to be a mapping. *)
Definition unpack_kwargs (v : value) : M (gmap string value) :=
  match v with
  | VDict d => mret d
  | _ => raise (TypeError "argument after ** must be a mapping")
  end.

(** The body of both [try] blocks (lines 122-123 and 159-160): the
    import of [ScrapeOptions] from [firecrawl], followed by the call of
    the class with the entries of the scrapeOptions value of [params] as
    its keyword arguments. *)
Definition make_ScrapeOptions (w : world) (raw : value) : M value :=
  cls ← import_ScrapeOptions w;
  kwargs ← unpack_kwargs raw;
  lift (cls kwargs).

(** [if src in params: kwargs[dst] = params[src]] *)
Definition copy_param (src dst : string) (params kwargs : gmap string value)
    : gmap string value :=
  match params !! src with
  | Some v => <[dst := v]> kwargs
  | None => kwargs
  end.

(** Lines 138-154: the keyword arguments of [crawl_url] that come from
    the recognised keys of [params]. *)
Definition crawl_kwargs (params : gmap string value) : gmap string value :=
  let kwargs := ∅ in
  let kwargs := copy_param "maxDepth" "max_depth" params kwargs in
  let kwargs := copy_param "limit" "limit" params kwargs in
  let kwargs := copy_param "includePaths" "include_paths" params kwargs in
  let kwargs := copy_param "excludePaths" "exclude_paths" params kwargs in
  let kwargs := copy_param "allowExternalLinks" "allow_external_links" params kwargs in
  let kwargs := copy_param "allowBackwardLinks" "allow_backward_links" params kwargs in
  let kwargs := copy_param "ignoreSitemap" "ignore_sitemap" params kwargs in
  kwargs.

(** Lines 117-188: the dispatch on [self.mode], which makes the one call
    on the client and leaves the items to iterate over in
    [firecrawl_docs]. *)
Definition firecrawl_docs (w : world) (self : FireCrawlLoader) : M (list value) :=
  if bool_decide (mode self = "scrape") then
    scrape_options ←
      match params self !! "scrapeOptions" with
      | Some raw => try_except_ImportError (make_ScrapeOptions w raw) (mret VNone)
      | None => mret VNone
      end;
    doc ← perform (scrape_url_call (url self) scrape_options)
                  (scrape_url (app self) (url self) scrape_options);
    mret [doc]
  else if bool_decide (mode self = "crawl") then
    if negb (nonempty (url self)) then
      raise (ValueError "URL is required for crawl mode")
    else
      let kwargs := crawl_kwargs (params self) in
      kwargs ←
        match params self !! "scrapeOptions" with
        | Some raw =>
            scrape_options ← try_except_ImportError (make_ScrapeOptions w raw) (mret raw);
            mret (<["scrape_options" := scrape_options]> kwargs)
        | None => mret kwargs
        end;
      crawl_response ← perform (crawl_url_call (url self) kwargs)
                               (crawl_url (app self) (url self) kwargs);
      mret (match data crawl_response with Some items => items | None => [] end)
  else if bool_decide (mode self = "map") then
    if negb (nonempty (url self)) then
      raise (ValueError "URL is required for map mode")
    else
      perform (map_url_call (url self) (params self))
              (map_url (app self) (url self) (params self))
  else if bool_decide (mode self = "extract") then
    if negb (nonempty (url self)) then
      raise (ValueError "URL is required for extract mode")
    else
      extracted ← perform (extract_call [url self] (params self))
                          (extract (app self) [url self] (params self));
      mret [VStr (str_result (app self) extracted)]
  else if bool_decide (mode self = "search") then
    perform (search_call (default VNone (params self !! "query")) (params self))
            (search (app self) (default VNone (params self !! "query")) (params self))
  else
    raise (ValueError ("Invalid mode '" +:+ mode self +:+ "'." +:+ nl +:+
      "                Allowed: 'crawl', 'scrape', 'map', 'extract', 'search'.")).

(** One record of the output, [langchain_core.documents.Document]: a
    validated model whose content is a string and whose metadata is a
    dictionary. *)
Record Document : Type := {
  page_content : string;
  metadata : gmap string value;
}.

(** [Document(page_content=..., metadata=...)] (line 200). The
    constructor validates its arguments: a content that is not a string
    or a metadata that is not a dictionary raises a validation error. *)
Definition new_Document (page_content metadata : value) : result Document :=
  match page_content, metadata with
  | VStr s, VDict d => Return {| page_content := s; metadata := d |}
  | _, _ => Raise (ValidationError "validation error for Document")
  end.

(** Lines 190-197: the content and the metadata of one item. *)
Definition page_content_of (mode : string) (doc : value) : value :=
  if bool_decide (mode = "map") || bool_decide (mode = "extract") then doc
  else py_or (getattr doc "markdown" VNone)
         (py_or (getattr doc "html" VNone) (getattr doc "rawHtml" (VStr ""))).

Definition metadata_of (mode : string) (doc : value) : value :=
  if bool_decide (mode = "map") || bool_decide (mode = "extract") then VDict ∅
  else py_or (getattr doc "metadata" (VDict ∅)) (VDict ∅).

(** Lines 189-203: the [for] loop, with [continue] on an item without
    content and [yield] of a new [Document] otherwise, run until the
    items are exhausted: the documents yielded, in order, or the
    exception of the constructor that ends the iteration. *)
Fixpoint documents (mode : string) (docs : list value) : result (list Document) :=
  match docs with
  | [] => Return []
  | doc :: rest =>
      let page_content := page_content_of mode doc in
      let metadata := metadata_of mode doc in
      if negb (truthy page_content) then documents mode rest
      else
        match new_Document page_content metadata with
        | Return document =>
            match documents mode rest with
            | Return yielded => Return (document :: yielded)
            | Raise e => Raise e
            end
        | Raise e => Raise e
        end
  end.

(** [FireCrawlLoader.lazy_load] (lines 116-203), run until the generator
    is exhausted, as [list(loader.lazy_load())] does: the documents it
    yields, in the order it yields them, or the exception that ends
    it. *)
Definition lazy_load (w : world) (self : FireCrawlLoader) : M (list Document) :=
  docs ← firecrawl_docs w self;
  lift (documents (mode self) docs).

(** ** The specification's reading of the normalisation step *)

(** The attribute [name] of an item, when the item has one. *)
Definition field (doc : value) (name : string) : option value :=
  match doc with
  | VObj attrs => attrs !! name
  | _ => None
  end.

(** The first non-empty of a row of optional fields, the empty string
    when there is none. *)
Fixpoint first_nonempty (fields : list (option value)) : value :=
  match fields with
  | [] => VStr ""
  | Some v :: rest => if truthy v then v else first_nonempty rest
  | None :: rest => first_nonempty rest
  end.

Definition normalized_content (doc : value) : value :=
  first_nonempty [field doc "markdown"; field doc "html"; field doc "rawHtml"].

(** The item's metadata field, or an empty mapping when the field is
    absent or null: the metadata as the specification words it. *)
Definition normalized_metadata (doc : value) : value :=
  match field doc "metadata" with
  | None | Some VNone => VDict ∅
  | Some m => m
  end.

(** The item's metadata field, or an empty mapping when the field is
    absent, null or empty in any other way (false as a truth value). *)
Definition metadata_or_empty (doc : value) : value :=
  match field doc "metadata" with
  | Some m => if truthy m then m else VDict ∅
  | None => VDict ∅
  end.

(** Arguments the constructor of [Document] accepts. *)
Definition valid_Document (page_content metadata : value) : bool :=
  match page_content, metadata with
  | VStr _, VDict _ => true
  | _, _ => false
  end.

(** An item is well formed when, if it has content, that content is a
    string and its metadata, if not empty, is a dictionary. *)
Definition item_well_formed (doc : value) : bool :=
  negb (truthy (normalized_content doc))
  || valid_Document (normalized_content doc) (metadata_or_empty doc).

(** One record per item with content, none for an item without. *)
Definition normalized_record (doc : value) : option Document :=
  if truthy (normalized_content doc) then
    match normalized_content doc, metadata_or_empty doc with
    | VStr s, VDict d => Some {| page_content := s; metadata := d |}
    | _, _ => None
    end
  else None.

(** The loop can build the record of an item in a mode: the item is
    skipped, or its content and metadata are accepted by [Document]. *)
Definition constructible (mode : string) (doc : value) : bool :=
  negb (truthy (page_content_of mode doc))
  || valid_Document (page_content_of mode doc) (metadata_of mode doc).

(** The document [d] is the record of the item [doc] in a mode. *)
Definition emitted_from (mode : string) (doc : value) (d : Document) : Prop :=
  page_content_of mode doc = VStr (page_content d) ∧
  metadata_of mode doc = VDict (metadata d).

(** The translation table of crawl mode: key of [params], keyword of
    [crawl_url]. *)
Definition crawl_keys : list (string * string) :=
  [("maxDepth", "max_depth"); ("limit", "limit");
   ("includePaths", "include_paths"); ("excludePaths", "exclude_paths");
   ("allowExternalLinks", "allow_external_links");
   ("allowBackwardLinks", "allow_backward_links");
   ("ignoreSitemap", "ignore_sitemap")].


(** The class [ScrapeOptions], if [firecrawl] can be imported and
    exports it. *)
Definition ScrapeOptions_of (w : world) : option (gmap string value → result value) :=
  pkg ← firecrawl w; ScrapeOptions pkg.

(** A key is available to the constructor: passed in and not empty, or
    set and not empty in the environment. *)
Definition key_available (w : world) (api_key : option string) : Prop :=
  (∃ k, api_key = Some k ∧ k ≠ "") ∨
  (∃ v, environ w !! "FIRECRAWL_API_KEY" = Some v ∧ v ≠ "").

(** The run of the constructor once the key is known. *)
Definition construct (pkg : firecrawl_package) (u key : string)
    (api_url : option string) (m : string) (ps : option (gmap string value))
    (tr : list call) : result FireCrawlLoader * list call :=
  match new_FirecrawlApp pkg key api_url with
  | Return client =>
      (Return {| app := client; url := u; mode := m;
                 params := match ps with
                           | Some p => if bool_decide (dom p = ∅) then ∅ else p
                           | None => ∅
                           end |},
       tr ++ [FirecrawlApp_call key api_url])
  | Raise e => (Raise e, tr ++ [FirecrawlApp_call key api_url])
  end.

(** The run of crawl mode once the keyword arguments are known: the call
    of [crawl_url], and the documents of the [data] of its response. *)
Definition crawl_call (self : FireCrawlLoader) (kwargs : gmap string value)
    (tr : list call) : result (list Document) * list call :=
  match crawl_url (app self) (url self) kwargs with
  | Return crawl_response =>
      (documents (mode self)
         (match data crawl_response with Some items => items | None => [] end),
       tr ++ [crawl_url_call (url self) kwargs])
  | Raise e => (Raise e, tr ++ [crawl_url_call (url self) kwargs])
  end.

(** ** Test doubles *)

(** An item of a response, from its attributes. *)
Definition item (attrs : list (string * value)) : value := VObj (list_to_map attrs).

(** Three crawled pages, the second without any content. *)
Definition crawl_items : list value :=
  [item [("markdown", VStr "first")];
   item [("markdown", VStr ""); ("html", VNone)];
   item [("markdown", VStr "second");
         ("metadata", VDict {[ "title" := VStr "t" ]})]].

(** A client whose every operation answers with a fixed response, as
    the mock of a test does. *)
Definition mock_app : FirecrawlApp := {|
  scrape_url := λ _ _, Return (item [("markdown", VStr "abc")]);
  crawl_url := λ _ _, Return {| data := Some crawl_items |};
  map_url := λ _ _, Return [VStr "a"; VStr "b"];
  extract := λ _ _, Return (VDict {[ "title" := VStr "t" ]});
  str_result := λ _, "{'title': 't'}";
  search := λ _ _, Return [item [("markdown", VStr "hit")]];
|}.

(** [ScrapeOptions] as a validating model: [formats], when given, has to
    be a list; a rejected field raises the validation error, which is a
    [ValueError]. *)
Definition mock_ScrapeOptions (kwargs : gmap string value) : result value :=
  match kwargs !! "formats" with
  | Some (VList _) | None => Return (VObj kwargs)
  | Some _ => Raise (ValueError "1 validation error for ScrapeOptions")
  end.

(** The package as installed, with and without the [ScrapeOptions]
    export. *)
Definition mock_package : firecrawl_package :=
  {| new_FirecrawlApp := λ _ _, Return mock_app;
     ScrapeOptions := Some mock_ScrapeOptions |}.

Definition old_package : firecrawl_package :=
  {| new_FirecrawlApp := λ _ _, Return mock_app; ScrapeOptions := None |}.

(** Worlds: the key set in the environment, no key anywhere, and an
    installation without [ScrapeOptions]. *)
Definition world_with_key : world :=
  {| firecrawl := Some mock_package;
     environ := {[ "FIRECRAWL_API_KEY" := "fc-env" ]} |}.

Definition world_without_key : world :=
  {| firecrawl := Some mock_package; environ := ∅ |}.

Definition world_old_package : world :=
  {| firecrawl := Some old_package; environ := ∅ |}.

Definition loader (mode : string) (params : gmap string value) : FireCrawlLoader :=
  {| app := mock_app; url := "https://firecrawl.dev"; mode := mode; params := params |}.

(** ** Readings used by the further properties *)

(** The mode a call on the client belongs to; the construction of the
    client belongs to none. *)
Definition call_mode (c : call) : option string :=
  match c with
  | FirecrawlApp_call _ _ => None
  | scrape_url_call _ _ => Some "scrape"
  | crawl_url_call _ _ => Some "crawl"
  | map_url_call _ _ => Some "map"
  | extract_call _ _ => Some "extract"
  | search_call _ _ => Some "search"
  end.

(** The run of a mode from its one call on: the call [c] is recorded,
    and its outcome either ends the load or gives the items, of which
    the loop makes the documents. *)
Definition run_call {A : Type} (self : FireCrawlLoader) (c : call)
    (outcome : result A) (items : A → list value) (tr : list call)
    : result (list Document) * list call :=
  match outcome with
  | Return a => (documents (mode self) (items a), tr ++ [c])
  | Raise e => (Raise e, tr ++ [c])
  end.


(** A value that is neither a dictionary nor an object: it cannot be
    unpacked into keyword arguments. *)
Definition not_a_mapping (v : value) : Prop :=
  match v with
  | VDict _ | VObj _ => False
  | _ => True
  end.

(** An item that is an object of the client, with attributes. *)
Definition is_object (v : value) : bool :=
  match v with VObj _ => true | _ => false end.

(** The keys of [params] that crawl mode reads. *)
Definition crawl_param_keys : list string :=
  "scrapeOptions" :: crawl_keys.*1.

(** A client whose every operation fails, as when the quota is used
    up. *)
Definition failing_app : FirecrawlApp := {|
  scrape_url := λ _ _, Raise (ClientError "402 Payment Required");
  crawl_url := λ _ _, Raise (ClientError "402 Payment Required");
  map_url := λ _ _, Raise (ClientError "402 Payment Required");
  extract := λ _ _, Raise (ClientError "402 Payment Required");
  str_result := λ _, "";
  search := λ _ _, Raise (ClientError "402 Payment Required");
|}.

(** A client whose crawl response has no [data] attribute. *)
Definition app_without_data : FirecrawlApp := {|
  scrape_url := scrape_url mock_app;
  crawl_url := λ _ _, Return {| data := None |};
  map_url := map_url mock_app;
  extract := extract mock_app;
  str_result := str_result mock_app;
  search := search mock_app;
|}.

(** A world in which the [firecrawl] package is not installed. *)
Definition world_without_package : world :=
  {| firecrawl := None; environ := {[ "FIRECRAWL_API_KEY" := "fc-env" ]} |}.

(** The outcome of one iteration followed by another: the documents of
    both, or the exception of the first that raises. *)
Definition followed_by (first second : result (list Document))
    : result (list Document) :=
  match first with
  | Return xs =>
      match second with
      | Return ys => Return (xs ++ ys)
      | Raise e => Raise e
      end
  | Raise e => Raise e
  end.

(** A client whose scraped page carries an empty string as metadata. *)
Definition app_blank_metadata : FirecrawlApp := {|
  scrape_url := λ _ _,
    Return (item [("markdown", VStr "abc"); ("metadata", VStr "")]);
  crawl_url := crawl_url mock_app;
  map_url := map_url mock_app;
  extract := extract mock_app;
  str_result := str_result mock_app;
  search := search mock_app;
|}.

(** ** Running the monad *)

Lemma lazy_load_unfold w self tr :
  lazy_load w self tr =
    match firecrawl_docs w self tr with
    | (Return docs, tr') => (documents (mode self) docs, tr')
    | (Raise e, tr') => (Raise e, tr')
    end.
Proof.
  unfold lazy_load, mbind, M_bind, lift.
  by destruct (firecrawl_docs w self tr) as [[docs|e] tr'].
Qed.

Lemma nonempty_true s : nonempty s = true ↔ s ≠ "".
Proof.
  unfold nonempty. rewrite negb_true_iff. split.
  - intros H ->. by rewrite String.eqb_refl in H.
  - intros H. by apply String.eqb_neq.
Qed.

(** ** The loop *)

Lemma new_Document_Return content meta d :
  new_Document content meta = Return d ↔
  content = VStr (page_content d) ∧ meta = VDict (metadata d).
Proof.
  unfold new_Document. split.
  - destruct content, meta; try done. by intros [= <-].
  - intros [-> ->]. by destruct d.
Qed.

Lemma new_Document_valid content meta :
  valid_Document content meta = true → ∃ d, new_Document content meta = Return d.
Proof. destruct content, meta; try done. intros _. by eexists. Qed.

Lemma new_Document_invalid content meta :
  valid_Document content meta = false →
  new_Document content meta = Raise (ValidationError "validation error for Document").
Proof. by destruct content, meta. Qed.

Lemma documents_skip mode doc rest :
  truthy (page_content_of mode doc) = false →
  documents mode (doc :: rest) = documents mode rest.
Proof. intros Hc. cbn [documents]. by rewrite Hc. Qed.

Lemma documents_yield mode doc rest :
  truthy (page_content_of mode doc) = true →
  documents mode (doc :: rest) =
    match new_Document (page_content_of mode doc) (metadata_of mode doc) with
    | Return document =>
        match documents mode rest with
        | Return yielded => Return (document :: yielded)
        | Raise e => Raise e
        end
    | Raise e => Raise e
    end.
Proof. intros Hc. cbn [documents]. by rewrite Hc. Qed.

(** The documents a load returns are the records of the items with
    content, one for one and in their order. *)
Lemma documents_Return mode docs out :
  documents mode docs = Return out ↔
  Forall2 (emitted_from mode)
    (filter (λ doc, truthy (page_content_of mode doc)) docs) out.
Proof.
  revert out. induction docs as [|doc rest IH]; intros out.
  - rewrite filter_nil. split.
    + intros [= <-]. constructor.
    + intros H. by apply Forall2_nil_inv_l in H as ->.
  - rewrite filter_cons.
    destruct (truthy (page_content_of mode doc)) eqn:Hc.
    + rewrite decide_True by done. rewrite (documents_yield _ _ _ Hc). split.
      * destruct (new_Document _ _) as [d|e] eqn:Hd; [|done].
        destruct (documents mode rest) as [ys|e]; [|done].
        intros [= <-]. constructor; [by apply new_Document_Return|by apply IH].
      * intros H. apply Forall2_cons_inv_l in H as (d & ys & Hd & Hys & ->).
        apply new_Document_Return in Hd. rewrite Hd.
        apply IH in Hys. by rewrite Hys.
    + rewrite decide_False by (simpl; tauto). rewrite (documents_skip _ _ _ Hc). apply IH.
Qed.

(** The loop fails exactly when the constructor rejects the record of
    one of the items, and then with its validation error. *)
Lemma documents_Raise mode docs :
  Exists (λ doc, constructible mode doc = false) docs ↔
  documents mode docs = Raise (ValidationError "validation error for Document").
Proof.
  induction docs as [|doc rest IH].
  - split; [intros H; by apply Exists_nil in H|simpl; intros [=]].
  - rewrite Exists_cons, IH. unfold constructible.
    destruct (truthy (page_content_of mode doc)) eqn:Hc; cbn [negb orb].
    + rewrite (documents_yield _ _ _ Hc).
      destruct (valid_Document _ _) eqn:Hv.
      * destruct (new_Document_valid _ _ Hv) as [d ->].
        destruct (documents mode rest) as [ys|e];
          (split; [intros [?|?]; done|intros ?; by right]).
      * rewrite (new_Document_invalid _ _ Hv). split; [done|by left].
    + rewrite (documents_skip _ _ _ Hc).
      split; [intros [?|?]; done|intros ?; by right].
Qed.

Lemma documents_cases mode docs :
  (∃ out, documents mode docs = Return out) ∨
  documents mode docs = Raise (ValidationError "validation error for Document").
Proof.
  induction docs as [|doc rest IH]; [left; by eexists|].
  destruct (truthy (page_content_of mode doc)) eqn:Hc.
  - rewrite (documents_yield _ _ _ Hc).
    destruct (valid_Document (page_content_of mode doc) (metadata_of mode doc))
      eqn:Hv.
    + destruct (new_Document_valid _ _ Hv) as [d ->].
      destruct IH as [[ys ->]| ->]; [left; by eexists|by right].
    + right. by rewrite (new_Document_invalid _ _ Hv).
  - by rewrite (documents_skip _ _ _ Hc).
Qed.

Lemma documents_constructible mode docs :
  Forall (λ doc, constructible mode doc = true) docs ↔
  ∃ out, documents mode docs = Return out.
Proof.
  split.
  - intros Hall. destruct (documents_cases mode docs) as [?|Hraise]; [done|].
    apply documents_Raise in Hraise. apply Exists_exists in Hraise as (doc & Hin & Hdoc).
    rewrite Forall_forall in Hall. specialize (Hall doc Hin). congruence.
  - intros [out Hout]. apply Forall_forall. intros doc Hin.
    destruct (constructible mode doc) eqn:Hc; [done|].
    assert (Exists (λ doc, constructible mode doc = false) docs) as Hex
      by (apply Exists_exists; eauto).
    apply documents_Raise in Hex. congruence.
Qed.

Lemma emitted_from_content mode doc d :
  emitted_from mode doc d → truthy (page_content_of mode doc) = true →
  page_content d ≠ "".
Proof.
  intros [Hc _] Ht. rewrite Hc in Ht. simpl in Ht.
  by apply nonempty_true in Ht.
Qed.

(** ** Content and metadata of an item (modes scrape, crawl, search) *)

Lemma page_mode_not_plain mode :
  mode ∈ ["scrape"; "crawl"; "search"] →
  bool_decide (mode = "map") || bool_decide (mode = "extract") = false.
Proof.
  intros Hm. apply orb_false_iff.
  split; apply bool_decide_eq_false; intros ->;
    repeat (apply elem_of_cons in Hm as [Hm|Hm]; [discriminate Hm|]);
    by apply elem_of_nil in Hm.
Qed.

Lemma getattr_field doc name dflt :
  getattr doc name dflt = default dflt (field doc name).
Proof. by destruct doc. Qed.

(** The [or]-chain of line 195 against the specification's "first
    non-empty": they agree on whether there is content, and on the
    content when there is. *)
Lemma or_chain_first_nonempty (md html raw : option value) :
  let chain := py_or (default VNone md)
                 (py_or (default VNone html) (default (VStr "") raw)) in
  truthy chain = truthy (first_nonempty [md; html; raw]) ∧
  (truthy chain = true → chain = first_nonempty [md; html; raw]).
Proof.
  unfold py_or. destruct md as [m|], html as [h|], raw as [r|]; simpl;
    repeat (match goal with
            | |- context [if truthy ?v then _ else _] =>
                is_var v; destruct (truthy v) eqn:?
            end; simpl);
    split; congruence.
Qed.

Lemma page_content_of_normalized mode doc :
  mode ∈ ["scrape"; "crawl"; "search"] →
  truthy (page_content_of mode doc) = truthy (normalized_content doc) ∧
  (truthy (page_content_of mode doc) = true →
   page_content_of mode doc = normalized_content doc).
Proof.
  intros Hm. unfold page_content_of, normalized_content.
  rewrite (page_mode_not_plain _ Hm), !getattr_field.
  apply or_chain_first_nonempty.
Qed.

Lemma metadata_of_or_empty mode doc :
  mode ∈ ["scrape"; "crawl"; "search"] →
  metadata_of mode doc = metadata_or_empty doc.
Proof.
  intros Hm. unfold metadata_of, metadata_or_empty.
  rewrite (page_mode_not_plain _ Hm), getattr_field. unfold py_or.
  by destruct (field doc "metadata") as [m|].
Qed.

Lemma constructible_well_formed mode doc :
  mode ∈ ["scrape"; "crawl"; "search"] →
  constructible mode doc = item_well_formed doc.
Proof.
  intros Hm. unfold constructible, item_well_formed.
  destruct (page_content_of_normalized mode doc Hm) as [Ht Heq].
  rewrite (metadata_of_or_empty _ _ Hm), Ht.
  destruct (truthy (normalized_content doc)); [|done].
  by rewrite Heq by (by rewrite Ht).
Qed.

Lemma documents_normalized mode docs :
  mode ∈ ["scrape"; "crawl"; "search"] →
  Forall (λ doc, item_well_formed doc = true) docs →
  documents mode docs = Return (omap normalized_record docs).
Proof.
  intros Hm Hwf. induction Hwf as [|doc rest Hdoc _ IH]; [done|].
  destruct (page_content_of_normalized mode doc Hm) as [Ht Heq].
  cbn [omap list_omap]. unfold normalized_record.
  unfold item_well_formed in Hdoc.
  destruct (truthy (normalized_content doc)) eqn:Hc.
  - rewrite (documents_yield _ _ _ Ht), IH, Heq by done.
    rewrite (metadata_of_or_empty _ _ Hm).
    simpl in Hdoc.
    by destruct (normalized_content doc), (metadata_or_empty doc).
  - by rewrite (documents_skip _ _ _ Ht).
Qed.

(** ** The dispatch, mode by mode *)

Lemma make_ScrapeOptions_unavailable w raw tr :
  ScrapeOptions_of w = None →
  ∃ msg, make_ScrapeOptions w raw tr = (Raise (ImportError msg), tr).
Proof.
  unfold ScrapeOptions_of, make_ScrapeOptions, import_ScrapeOptions.
  destruct (firecrawl w) as [pkg|]; simpl.
  - intros ->. by eexists.
  - intros _. by eexists.
Qed.

Lemma make_ScrapeOptions_available w cls d tr :
  ScrapeOptions_of w = Some cls →
  make_ScrapeOptions w (VDict d) tr = (cls d, tr).
Proof.
  unfold ScrapeOptions_of, make_ScrapeOptions, import_ScrapeOptions.
  destruct (firecrawl w) as [pkg|]; simpl; [|done].
  intros ->. unfold mbind, M_bind, mret, M_ret, lift. simpl.
  by destruct (cls d).
Qed.

Lemma make_ScrapeOptions_trace w raw tr :
  (make_ScrapeOptions w raw tr).2 = tr.
Proof.
  unfold make_ScrapeOptions, import_ScrapeOptions.
  destruct (firecrawl w) as [pkg|]; [|done].
  destruct (ScrapeOptions pkg) as [cls|]; [|done].
  by destruct raw.
Qed.

Lemma firecrawl_docs_scrape w self tr :
  mode self = "scrape" →
  firecrawl_docs w self tr =
    (scrape_options ←
       match params self !! "scrapeOptions" with
       | Some raw => try_except_ImportError (make_ScrapeOptions w raw) (mret VNone)
       | None => mret VNone
       end;
     doc ← perform (scrape_url_call (url self) scrape_options)
                   (scrape_url (app self) (url self) scrape_options);
     mret [doc]) tr.
Proof. intros Hm. unfold firecrawl_docs. by rewrite Hm. Qed.

Lemma firecrawl_docs_crawl w self tr :
  mode self = "crawl" → url self ≠ "" →
  firecrawl_docs w self tr =
    (kwargs ←
       match params self !! "scrapeOptions" with
       | Some raw =>
           scrape_options ← try_except_ImportError (make_ScrapeOptions w raw) (mret raw);
           mret (<["scrape_options" := scrape_options]> (crawl_kwargs (params self)))
       | None => mret (crawl_kwargs (params self))
       end;
     crawl_response ← perform (crawl_url_call (url self) kwargs)
                              (crawl_url (app self) (url self) kwargs);
     mret (match data crawl_response with Some items => items | None => [] end)) tr.
Proof.
  intros Hm Hu. unfold firecrawl_docs. rewrite Hm. simpl.
  apply nonempty_true in Hu. by rewrite Hu.
Qed.

Lemma firecrawl_docs_map w self tr :
  mode self = "map" → url self ≠ "" →
  firecrawl_docs w self tr =
    (map_url (app self) (url self) (params self),
     tr ++ [map_url_call (url self) (params self)]).
Proof.
  intros Hm Hu. unfold firecrawl_docs. rewrite Hm. simpl.
  apply nonempty_true in Hu. by rewrite Hu.
Qed.

Lemma firecrawl_docs_extract w self tr :
  mode self = "extract" → url self ≠ "" →
  firecrawl_docs w self tr =
    match extract (app self) [url self] (params self) with
    | Return extracted =>
        (Return [VStr (str_result (app self) extracted)],
         tr ++ [extract_call [url self] (params self)])
    | Raise e => (Raise e, tr ++ [extract_call [url self] (params self)])
    end.
Proof.
  intros Hm Hu. unfold firecrawl_docs. rewrite Hm. simpl.
  apply nonempty_true in Hu. rewrite Hu. simpl.
  unfold mbind, M_bind, perform.
  by destruct (extract _ _ _).
Qed.

Lemma firecrawl_docs_search w self tr :
  mode self = "search" →
  firecrawl_docs w self tr =
    (search (app self) (default VNone (params self !! "query")) (params self),
     tr ++ [search_call (default VNone (params self !! "query")) (params self)]).
Proof. intros Hm. unfold firecrawl_docs. by rewrite Hm. Qed.

Lemma firecrawl_docs_invalid w self tr :
  mode self ∉ modes →
  ∃ msg, firecrawl_docs w self tr = (Raise (ValueError msg), tr).
Proof.
  intros Hm. unfold firecrawl_docs.
  repeat (case_bool_decide as Hc;
          [exfalso; apply Hm; rewrite Hc; unfold modes; set_solver|clear Hc]).
  by eexists.
Qed.

Lemma firecrawl_docs_scrape_single w self tr tr' docs :
  mode self = "scrape" →
  firecrawl_docs w self tr = (Return docs, tr') →
  ∃ doc, docs = [doc].
Proof.
  intros Hm. rewrite (firecrawl_docs_scrape _ _ _ Hm).
  unfold mbind, M_bind, mret, M_ret, perform.
  destruct (params self !! "scrapeOptions") as [raw|].
  - destruct (try_except_ImportError _ _ tr) as [[so|e] tr1]; [|done].
    destruct (scrape_url _ _ _) as [doc|e']; [|done].
    intros [= <- _]. by eexists.
  - destruct (scrape_url _ _ _) as [doc|e']; [|done].
    intros [= <- _]. by eexists.
Qed.


(** ** The model on concrete inputs *)

(** The second field is used when the first is null. *)
Example documents_html_after_null_markdown :
  documents "search"
    [item [("markdown", VNone); ("html", VStr "<p>hi</p>"); ("rawHtml", VStr "raw")]]
  = Return [{| page_content := "<p>hi</p>"; metadata := ∅ |}].
Proof. reflexivity. Qed.

(** A null rawHtml is what the [or]-chain evaluates to when no field has
    content; the item is skipped all the same. *)
Example page_content_null_rawHtml :
  page_content_of "scrape" (item [("rawHtml", VNone)]) = VNone ∧
  documents "scrape" [item [("rawHtml", VNone)]] = Return [].
Proof. split; reflexivity. Qed.

(** Any metadata that is false as a truth value is replaced by the empty
    mapping, a number included. *)
Example documents_zero_metadata :
  documents "scrape" [item [("markdown", VStr "x"); ("metadata", VInt 0)]]
  = Return [{| page_content := "x"; metadata := ∅ |}].
Proof. reflexivity. Qed.

(** An item that is not an object has none of the attributes. *)
Example documents_plain_string_item :
  documents "search" [VStr "https://firecrawl.dev"] = Return [].
Proof. reflexivity. Qed.

(** A content that is not a string is rejected by [Document], and so is
    a metadata that is an object of the client; the documents of the
    earlier items are lost with the exception. *)
Example documents_number_content_rejected :
  documents "scrape" [item [("markdown", VInt 7)]]
  = Raise (ValidationError "validation error for Document").
Proof. reflexivity. Qed.

Example documents_object_metadata_rejected :
  documents "crawl"
    [item [("markdown", VStr "first")];
     item [("markdown", VStr "second");
           ("metadata", VObj {[ "title" := VStr "t" ]})]]
  = Raise (ValidationError "validation error for Document").
Proof. reflexivity. Qed.

(** scrapeOptions that is not a mapping cannot be unpacked. *)
Example lazy_load_scrapeOptions_not_a_mapping :
  lazy_load world_with_key (loader "crawl" {[ "scrapeOptions" := VInt 3 ]}) []
  = (Raise (TypeError "argument after ** must be a mapping"), []).
Proof. reflexivity. Qed.

(** The recognised keys are renamed, the others are not passed. *)
Example crawl_kwargs_renamed :
  crawl_kwargs {[ "maxDepth" := VInt 2; "limit" := VInt 10; "timeout" := VInt 30 ]}
  = {[ "max_depth" := VInt 2; "limit" := VInt 10 ]}.
Proof. reflexivity. Qed.

(** ** Claims about the normalisation of items *)

Lemma emitted_contents mode items out :
  Forall2 (emitted_from mode) items out →
  page_content_of mode <$> items = (λ d, VStr (page_content d)) <$> out.
Proof.
  induction 1 as [|doc d items out [Hc _] _ IH]; [done|].
  rewrite !fmap_cons. by rewrite Hc, IH.
Qed.

Lemma emitted_elem mode items out d :
  Forall2 (emitted_from mode) items out → d ∈ out →
  ∃ doc, doc ∈ items ∧ emitted_from mode doc d.
Proof.
  induction 1 as [|doc d' items out Hd _ IH]; intros Hin.
  - by apply elem_of_nil in Hin.
  - apply elem_of_cons in Hin as [->|Hin].
    + exists doc. split; [apply list_elem_of_here|done].
    + destruct (IH Hin) as (doc' & ? & ?). exists doc'.
      split; [by apply list_elem_of_further|done].
Qed.

Lemma lazy_load_documents w self tr tr' docs :
  firecrawl_docs w self tr = (Return docs, tr') →
  lazy_load w self tr = (documents (mode self) docs, tr').
Proof. intros Hdocs. by rewrite lazy_load_unfold, Hdocs. Qed.

Lemma normalized_content_markdown doc s :
  field doc "markdown" = Some (VStr s) → s ≠ "" →
  normalized_content doc = VStr s.
Proof.
  intros Hmd Hs. unfold normalized_content. rewrite Hmd. simpl.
  apply nonempty_true in Hs. unfold nonempty in Hs. by rewrite Hs.
Qed.

Lemma normalized_record_markdown doc s d :
  field doc "markdown" = Some (VStr s) → s ≠ "" →
  metadata_or_empty doc = VDict d →
  normalized_record doc = Some {| page_content := s; metadata := d |} ∧
  item_well_formed doc = true.
Proof.
  intros Hmd Hs Hmeta. unfold normalized_record, item_well_formed.
  rewrite (normalized_content_markdown _ _ Hmd Hs), Hmeta. simpl.
  apply nonempty_true in Hs. unfold nonempty in Hs. by rewrite Hs.
Qed.

(** C1, as amended. In scrape, crawl and search mode the record emitted
    for an item has as content the first non-empty of the item's
    markdown, html and rawHtml, and as metadata the item's metadata
    field, or an empty mapping when that field is absent, null or empty
    in any other way; an item without content is left out. The load
    returns these records when every item with content has a string as
    that content and a mapping as that metadata, and otherwise fails in
    the constructor of the record. In scrape mode there is one item, and
    when its markdown is "abc" and its metadata a mapping, the output is
    exactly one record with content "abc". *)
Theorem C1_content_and_metadata (w : world) (self : FireCrawlLoader)
    (tr tr' : list call) (docs : list value) :
  mode self ∈ ["scrape"; "crawl"; "search"] →
  firecrawl_docs w self tr = (Return docs, tr') →
  (Forall (λ doc, item_well_formed doc = true) docs →
   lazy_load w self tr = (Return (omap normalized_record docs), tr')) ∧
  (Exists (λ doc, item_well_formed doc = false) docs →
   ∃ msg, lazy_load w self tr = (Raise (ValidationError msg), tr')) ∧
  (∀ out d, lazy_load w self tr = (Return out, tr') → d ∈ out →
   ∃ doc, doc ∈ docs ∧
          normalized_content doc = VStr (page_content d) ∧
          metadata_or_empty doc = VDict (metadata d)) ∧
  (mode self = "scrape" →
   ∃ doc, docs = [doc] ∧
     ∀ d, field doc "markdown" = Some (VStr "abc") →
          metadata_or_empty doc = VDict d →
          lazy_load w self tr =
            (Return [{| page_content := "abc"; metadata := d |}], tr')).
Proof.
  intros Hm Hdocs. rewrite (lazy_load_documents _ _ _ _ _ Hdocs).
  assert (Forall (λ doc, item_well_formed doc = true) docs →
          documents (mode self) docs = Return (omap normalized_record docs))
    as Hok by apply (documents_normalized _ _ Hm).
  split_and!.
  - intros Hwf. by rewrite Hok.
  - intros Hex. eexists. f_equal. apply documents_Raise.
    apply Exists_exists in Hex as (doc & Hin & Hdoc).
    apply Exists_exists. exists doc. split; [done|].
    by rewrite (constructible_well_formed _ _ Hm).
  - intros out d [= Hout] Hd. apply documents_Return in Hout.
    destruct (emitted_elem _ _ _ _ Hout Hd) as (doc & Hin & Hc & Hmd).
    apply list_elem_of_filter in Hin as [Ht Hin]. exists doc.
    destruct (page_content_of_normalized (mode self) doc Hm) as [_ Heq].
    rewrite <- Heq, <- (metadata_of_or_empty _ _ Hm) by by apply Is_true_true.
    done.
  - intros Hscrape.
    destruct (firecrawl_docs_scrape_single _ _ _ _ _ Hscrape Hdocs) as [doc ->].
    exists doc. split; [done|]. intros d Hmd Hmeta.
    assert (normalized_content doc = VStr "abc") as Hc
      by (by apply normalized_content_markdown).
    rewrite Hok.
    + cbn [omap list_omap]. unfold normalized_record. by rewrite Hc, Hmeta.
    + constructor; [|constructor]. unfold item_well_formed. by rewrite Hc, Hmeta.
Qed.

Lemma C1_content_and_metadata_witness :
  mode (loader "scrape" ∅) ∈ ["scrape"; "crawl"; "search"] ∧
  Forall (λ doc, item_well_formed doc = true) [item [("markdown", VStr "abc")]] ∧
  lazy_load world_with_key (loader "scrape" ∅) [] =
    (Return [{| page_content := "abc"; metadata := ∅ |}],
     [scrape_url_call "https://firecrawl.dev" VNone]).
Proof.
  assert (mode (loader "scrape" ∅) ∈ ["scrape"; "crawl"; "search"]) as Hm
    by apply list_elem_of_here.
  assert (Forall (λ doc, item_well_formed doc = true)
            [item [("markdown", VStr "abc")]]) as Hwf
    by (repeat constructor).
  split; [exact Hm|]. split; [exact Hwf|].
  exact (proj1 (C1_content_and_metadata world_with_key (loader "scrape" ∅) []
                  [scrape_url_call "https://firecrawl.dev" VNone]
                  [item [("markdown", VStr "abc")]] Hm eq_refl) Hwf).
Defined.

(** C1 as stated fails: the scraped item has the empty string as its
    metadata field, which is neither absent nor null, so that the
    metadata of its record would be that field; the record that
    [lazy_load] emits has the empty mapping instead. *)
Lemma C1_counterexample :
  let scraped := item [("markdown", VStr "abc"); ("metadata", VStr "")] in
  field scraped "metadata" = Some (VStr "") ∧
  normalized_metadata scraped = VStr "" ∧
  lazy_load world_with_key
    {| app := app_blank_metadata; url := "https://firecrawl.dev";
       mode := "scrape"; params := ∅ |} [] =
    (Return [{| page_content := "abc"; metadata := ∅ |}],
     [scrape_url_call "https://firecrawl.dev" VNone]) ∧
  VDict ∅ ≠ normalized_metadata scraped.
Proof. split_and!; done. Qed.

(** C2. [lazy_load] emits a record for exactly the items whose resolved
    content is not empty, in the order of the items: the output, when
    the load returns, consists of the records of the items with content,
    one for one and in order, every record has content, and the contents
    form a subsequence of the items' contents. The load returns whenever
    the record of each item with content can be built. A crawl response
    of three items, two with non-empty markdown and one with all content
    fields empty, gives the two records of the former, in their order. *)
Theorem C2_empty_skipped_order_kept (w : world) (self : FireCrawlLoader)
    (tr tr' : list call) (docs : list value) :
  firecrawl_docs w self tr = (Return docs, tr') →
  (∀ out, lazy_load w self tr = (Return out, tr') ↔
     Forall2 (emitted_from (mode self))
       (filter (λ doc, truthy (page_content_of (mode self) doc)) docs) out) ∧
  (∀ out, lazy_load w self tr = (Return out, tr') →
     Forall (λ d, page_content d ≠ "") out ∧
     ((λ d, VStr (page_content d)) <$> out)
       `sublist_of` (page_content_of (mode self) <$> docs)) ∧
  (Forall (λ doc, constructible (mode self) doc = true) docs ↔
   ∃ out, lazy_load w self tr = (Return out, tr')) ∧
  (mode self = "crawl" →
   ∀ a b e sa sb da db,
     field a "markdown" = Some (VStr sa) → sa ≠ "" →
     metadata_or_empty a = VDict da →
     field b "markdown" = Some (VStr sb) → sb ≠ "" →
     metadata_or_empty b = VDict db →
     truthy (normalized_content e) = false →
     docs = [e; a; b] ∨ docs = [a; e; b] ∨ docs = [a; b; e] →
     lazy_load w self tr =
       (Return [{| page_content := sa; metadata := da |};
                {| page_content := sb; metadata := db |}], tr')).
Proof.
  intros Hdocs. rewrite (lazy_load_documents _ _ _ _ _ Hdocs).
  assert (∀ out, (documents (mode self) docs, tr') = (Return out, tr') ↔
                 documents (mode self) docs = Return out) as Hpair.
  { intros out. split; [by intros [= ->]|by intros ->]. }
  split_and!.
  - intros out. rewrite Hpair. apply documents_Return.
  - intros out Hout. apply Hpair, documents_Return in Hout. split.
    + apply Forall_forall. intros d Hd.
      destruct (emitted_elem _ _ _ _ Hout Hd) as (doc & Hin & Hem).
      apply list_elem_of_filter in Hin as [Ht _].
      apply (emitted_from_content _ _ _ Hem). by apply Is_true_true.
    + rewrite <- (emitted_contents _ _ _ Hout).
      apply fmap_sublist, sublist_filter.
  - rewrite documents_constructible.
    split; intros [out Hout]; exists out; by apply Hpair.
  - intros Hm a b e sa sb da db Ha Hsa Hda Hb Hsb Hdb He Hcases.
    assert (mode self ∈ ["scrape"; "crawl"; "search"]) as Hin
      by (rewrite Hm, !elem_of_cons; tauto).
    f_equal. rewrite (documents_normalized _ _ Hin).
    + destruct (normalized_record_markdown _ _ _ Ha Hsa Hda) as [Hra _].
      destruct (normalized_record_markdown _ _ _ Hb Hsb Hdb) as [Hrb _].
      assert (normalized_record e = None) as Hre
        by (unfold normalized_record; by rewrite He).
      destruct Hcases as [->|[->| ->]]; cbn [omap list_omap];
        by rewrite Hra, Hrb, Hre.
    + destruct (normalized_record_markdown _ _ _ Ha Hsa Hda) as [_ Hwa].
      destruct (normalized_record_markdown _ _ _ Hb Hsb Hdb) as [_ Hwb].
      assert (item_well_formed e = true) as Hwe
        by (unfold item_well_formed; by rewrite He).
      destruct Hcases as [->|[->| ->]]; repeat constructor; done.
Qed.

Lemma C2_empty_skipped_order_kept_witness :
  firecrawl_docs world_with_key (loader "crawl" ∅) [] =
    (Return crawl_items, [crawl_url_call "https://firecrawl.dev" ∅]) ∧
  lazy_load world_with_key (loader "crawl" ∅) [] =
    (Return [{| page_content := "first"; metadata := ∅ |};
             {| page_content := "second";
                metadata := {[ "title" := VStr "t" ]} |}],
     [crawl_url_call "https://firecrawl.dev" ∅]).
Proof.
  assert (firecrawl_docs world_with_key (loader "crawl" ∅) [] =
            (Return crawl_items, [crawl_url_call "https://firecrawl.dev" ∅]))
    as Hdocs by reflexivity.
  split; [exact Hdocs|].
  destruct (C2_empty_skipped_order_kept _ _ _ _ _ Hdocs) as (_ & _ & _ & H).
  apply (H eq_refl (item [("markdown", VStr "first")])
           (item [("markdown", VStr "second");
                  ("metadata", VDict {[ "title" := VStr "t" ]})])
           (item [("markdown", VStr ""); ("html", VNone)]));
    try done.
  right. by left.
Defined.

(** ** The constructor *)

Lemma init_modes_modes m : m ∈ init_modes ↔ m ∈ modes.
Proof.
  unfold init_modes, modes. rewrite !elem_of_cons, !elem_of_nil. tauto.
Qed.

Lemma get_from_env_set w key env_key v :
  environ w !! env_key = Some v → v ≠ "" →
  get_from_env w key env_key None = Return v.
Proof.
  intros Hv Hne. unfold get_from_env. rewrite Hv.
  apply nonempty_true in Hne. by rewrite Hne.
Qed.

Lemma get_from_env_unset w key env_key :
  environ w !! env_key = None ∨ environ w !! env_key = Some "" →
  ∃ msg, get_from_env w key env_key None = Raise (ValueError msg).
Proof.
  intros [Hv|Hv]; unfold get_from_env; rewrite Hv; simpl; by eexists.
Qed.

Section constructor.
Context (w : world) (pkg : firecrawl_package).
Context (u : string) (api_url : option string) (m : string).
Context (ps : option (gmap string value)) (tr : list call).
Hypothesis Hpkg : firecrawl w = Some pkg.

Lemma init_invalid_mode api_key :
  m ∉ modes →
  ∃ msg, __init__ w u api_key api_url m ps tr = (Raise (ValueError msg), tr).
Proof.
  intros Hm. unfold __init__. rewrite Hpkg.
  rewrite bool_decide_eq_true_2 by (by rewrite init_modes_modes).
  by eexists.
Qed.

Hypothesis Hm : m ∈ modes.
Hypothesis Hu : u ≠ "".

(** Past the validation of [mode] and [url], the constructor resolves
    the key and builds the client. *)
Lemma init_validated api_key :
  __init__ w u api_key api_url m ps =
    (api_key ← (match api_key with
                | Some k =>
                    if nonempty k then mret k
                    else lift (get_from_env w "api_key" "FIRECRAWL_API_KEY" None)
                | None => lift (get_from_env w "api_key" "FIRECRAWL_API_KEY" None)
                end : M string);
     client ← perform (FirecrawlApp_call api_key api_url)
                      (new_FirecrawlApp pkg api_key api_url);
     mret {| app := client; url := u; mode := m;
             params := match ps with
                       | Some p => if bool_decide (dom p = ∅) then ∅ else p
                       | None => ∅
                       end |}).
Proof.
  unfold __init__. rewrite Hpkg.
  rewrite bool_decide_eq_false_2 by (by rewrite init_modes_modes; intros []).
  apply nonempty_true in Hu. by rewrite Hu.
Qed.

Lemma init_explicit_key k :
  k ≠ "" →
  __init__ w u (Some k) api_url m ps tr = construct pkg u k api_url m ps tr.
Proof.
  intros Hk. rewrite init_validated.
  apply nonempty_true in Hk. rewrite Hk.
  unfold construct, mbind, M_bind, mret, M_ret, perform.
  by destruct (new_FirecrawlApp _ _ _).
Qed.

Lemma init_env_key api_key :
  api_key = None ∨ api_key = Some "" →
  __init__ w u api_key api_url m ps tr =
    match get_from_env w "api_key" "FIRECRAWL_API_KEY" None with
    | Return v => construct pkg u v api_url m ps tr
    | Raise e => (Raise e, tr)
    end.
Proof.
  intros Hk. rewrite init_validated.
  unfold construct, mbind, M_bind, mret, M_ret, perform, lift.
  destruct Hk as [-> | ->]; simpl;
    (destruct (get_from_env _ _ _ _) as [v|e]; [|done]);
    by destruct (new_FirecrawlApp _ _ _).
Qed.

Lemma construct_trace key :
  (construct pkg u key api_url m ps tr).2 = tr ++ [FirecrawlApp_call key api_url].
Proof. unfold construct. by destruct (new_FirecrawlApp _ _ _). Qed.

Hypothesis Hclient : ∀ k a, ∃ client, new_FirecrawlApp pkg k a = Return client.

Lemma construct_succeeds key :
  ∃ self tr', construct pkg u key api_url m ps tr = (Return self, tr').
Proof.
  unfold construct. destruct (Hclient key api_url) as [client ->].
  by do 2 eexists.
Qed.

Lemma init_succeeds api_key :
  key_available w api_key →
  ∃ self tr', __init__ w u api_key api_url m ps tr = (Return self, tr').
Proof.
  intros Hkey.
  destruct api_key as [k|]; [destruct (decide (k = "")) as [->|Hk]|].
  - destruct Hkey as [(k & [= <-] & Hk)|(v & Hv & Hne)]; [done|].
    rewrite init_env_key by auto.
    rewrite (get_from_env_set _ _ _ _ Hv Hne). apply construct_succeeds.
  - rewrite (init_explicit_key _ Hk). apply construct_succeeds.
  - destruct Hkey as [(k & [=] & _)|(v & Hv & Hne)].
    rewrite init_env_key by auto.
    rewrite (get_from_env_set _ _ _ _ Hv Hne). apply construct_succeeds.
Qed.
End constructor.

(** ** Claims about construction *)

(** C3, as amended. With the client package installed and its
    constructor succeeding, a non-empty url and an API key available
    (passed in, or set in the environment), construction succeeds exactly
    for the five modes; any other mode makes construction fail with a
    [ValueError], and makes [lazy_load] fail with a [ValueError] at
    dispatch, before any call on the client. *)
Theorem C3_mode_validated (w : world) (pkg : firecrawl_package) (u : string)
    (api_key api_url : option string) (m : string)
    (ps : option (gmap string value)) (tr : list call) :
  firecrawl w = Some pkg →
  (∀ k a, ∃ client, new_FirecrawlApp pkg k a = Return client) →
  u ≠ "" →
  key_available w api_key →
  ((∃ self tr', __init__ w u api_key api_url m ps tr = (Return self, tr'))
   ↔ m ∈ modes) ∧
  (m ∉ modes →
   ∃ msg, __init__ w u api_key api_url m ps tr = (Raise (ValueError msg), tr)) ∧
  (∀ self tr0, mode self ∉ modes →
   ∃ msg, lazy_load w self tr0 = (Raise (ValueError msg), tr0)).
Proof.
  intros Hpkg Hclient Hu Hkey. split; [split|split].
  - intros (self & tr' & Hrun). destruct (decide (m ∈ modes)) as [|Hm]; [done|].
    destruct (init_invalid_mode w pkg u api_url m ps tr Hpkg api_key Hm)
      as [msg Hmsg].
    congruence.
  - intros Hm. by apply (init_succeeds w pkg).
  - by apply (init_invalid_mode w pkg).
  - intros self tr0 Hm.
    destruct (firecrawl_docs_invalid w self tr0 Hm) as [msg Hmsg].
    exists msg. by rewrite lazy_load_unfold, Hmsg.
Qed.

Lemma C3_mode_validated_witness :
  (∃ self tr', __init__ world_with_key "https://firecrawl.dev" None None
                 "search" None [] = (Return self, tr')) ∧
  (∃ msg, __init__ world_with_key "https://firecrawl.dev" None None
            "sitemap" None [] = (Raise (ValueError msg), [])).
Proof.
  assert (∀ k a, ∃ client, new_FirecrawlApp mock_package k a = Return client)
    as Hclient by (intros; by eexists).
  assert (key_available world_with_key None) as Hkey
    by (right; by exists "fc-env").
  split.
  - apply (C3_mode_validated world_with_key mock_package "https://firecrawl.dev"
             None None "search" None [] eq_refl Hclient); [done|exact Hkey|].
    unfold modes. rewrite !elem_of_cons. tauto.
  - apply (C3_mode_validated world_with_key mock_package "https://firecrawl.dev"
             None None "sitemap" None [] eq_refl Hclient); [done|exact Hkey|].
    unfold modes. rewrite !elem_of_cons, elem_of_nil. intros H.
    repeat (destruct H as [H|H]; [discriminate H|]). done.
Defined.

(** C3 as stated fails: in crawl mode, with a non-empty url and the
    client package installed, construction does not succeed when no key
    is passed and none is in the environment. *)
Lemma C3_counterexample :
  firecrawl world_without_key = Some mock_package ∧
  (∀ k a, ∃ client, new_FirecrawlApp mock_package k a = Return client) ∧
  "crawl" ∈ modes ∧
  __init__ world_without_key "https://firecrawl.dev" None None "crawl" None [] =
    (Raise (ValueError
       "Did not find api_key, please add an environment variable `FIRECRAWL_API_KEY` which contains it, or pass `api_key` as a named parameter."),
     []).
Proof.
  split; [done|]. split; [intros; by eexists|].
  split; [|reflexivity].
  unfold modes. rewrite !elem_of_cons. tauto.
Qed.

(** C4. With the client package installed, construction with an empty
    url fails with a [ValueError] whatever the mode, search included, and
    before any call is made. *)
Theorem C4_empty_url_rejected (w : world) (pkg : firecrawl_package)
    (api_key api_url : option string) (m : string)
    (ps : option (gmap string value)) (tr : list call) :
  firecrawl w = Some pkg →
  ∃ msg, __init__ w "" api_key api_url m ps tr = (Raise (ValueError msg), tr).
Proof.
  intros Hpkg. unfold __init__. rewrite Hpkg.
  case_bool_decide; by eexists.
Qed.

Lemma C4_empty_url_rejected_witness :
  firecrawl world_with_key = Some mock_package ∧
  ∃ msg, __init__ world_with_key "" (Some "fc-key") None "search" None [] =
           (Raise (ValueError msg), []).
Proof.
  split; [reflexivity|].
  exact (C4_empty_url_rejected world_with_key mock_package (Some "fc-key") None
           "search" None [] eq_refl).
Defined.

(** C7, as amended. Past the validation of mode and url, the key passed
    to the client's constructor is the explicit argument when that is not
    empty, and otherwise the value of FIRECRAWL_API_KEY of the
    environment when that is set and not empty; the outcome of the
    constructor is then the outcome of building the client with that key.
    When neither yields a key, the lookup in the environment fails: the
    constructor raises a [ValueError] and the client is not built. *)
Theorem C7_key_resolution (w : world) (pkg : firecrawl_package) (u : string)
    (api_key api_url : option string) (m : string)
    (ps : option (gmap string value)) (tr : list call) :
  firecrawl w = Some pkg → m ∈ modes → u ≠ "" →
  (∀ k, api_key = Some k → k ≠ "" →
     __init__ w u api_key api_url m ps tr = construct pkg u k api_url m ps tr ∧
     (__init__ w u api_key api_url m ps tr).2 = tr ++ [FirecrawlApp_call k api_url]) ∧
  (api_key = None ∨ api_key = Some "" →
   ∀ v, environ w !! "FIRECRAWL_API_KEY" = Some v → v ≠ "" →
     __init__ w u api_key api_url m ps tr = construct pkg u v api_url m ps tr ∧
     (__init__ w u api_key api_url m ps tr).2 = tr ++ [FirecrawlApp_call v api_url]) ∧
  (api_key = None ∨ api_key = Some "" →
   environ w !! "FIRECRAWL_API_KEY" = None ∨
   environ w !! "FIRECRAWL_API_KEY" = Some "" →
     ∃ msg, __init__ w u api_key api_url m ps tr = (Raise (ValueError msg), tr)).
Proof.
  intros Hpkg Hm Hu. split; [|split].
  - intros k -> Hk.
    rewrite (init_explicit_key w pkg u api_url m ps tr Hpkg Hm Hu k Hk).
    auto using construct_trace.
  - intros Hkey v Hv Hne.
    rewrite (init_env_key w pkg u api_url m ps tr Hpkg Hm Hu api_key Hkey).
    rewrite (get_from_env_set _ _ _ _ Hv Hne). auto using construct_trace.
  - intros Hkey Henv.
    rewrite (init_env_key w pkg u api_url m ps tr Hpkg Hm Hu api_key Hkey).
    destruct (get_from_env_unset w "api_key" _ Henv) as [msg ->]. by exists msg.
Qed.

Lemma C7_key_resolution_witness :
  firecrawl world_with_key = Some mock_package ∧ "crawl" ∈ modes ∧
  (__init__ world_with_key "https://firecrawl.dev" (Some "fc-arg") None
     "crawl" None []).2 = [FirecrawlApp_call "fc-arg" None] ∧
  (__init__ world_with_key "https://firecrawl.dev" None None
     "crawl" None []).2 = [FirecrawlApp_call "fc-env" None].
Proof.
  assert ("crawl" ∈ modes) as Hm
    by (unfold modes; rewrite !elem_of_cons; tauto).
  split; [reflexivity|]. split; [exact Hm|]. split.
  - destruct (C7_key_resolution world_with_key mock_package "https://firecrawl.dev"
                (Some "fc-arg") None "crawl" None [] eq_refl Hm) as (H & _ & _);
      [done|].
    by destruct (H "fc-arg" eq_refl) as [_ ->].
  - destruct (C7_key_resolution world_with_key mock_package "https://firecrawl.dev"
                None None "crawl" None [] eq_refl Hm) as (_ & H & _);
      [done|].
    by destruct (H (or_introl eq_refl) "fc-env" eq_refl) as [_ ->].
Defined.

(** C7 as stated fails: with no key passed and none in the environment,
    the constructor itself raises, and the client's constructor is never
    called (no call is recorded). *)
Lemma C7_counterexample :
  environ world_without_key !! "FIRECRAWL_API_KEY" = None ∧
  __init__ world_without_key "https://firecrawl.dev" None None "scrape" None [] =
    (Raise (ValueError
       "Did not find api_key, please add an environment variable `FIRECRAWL_API_KEY` which contains it, or pass `api_key` as a named parameter."),
     []).
Proof. split; reflexivity. Qed.

(** ** Crawl mode: the keyword arguments *)

Lemma copy_param_ne src dst (ps kwargs : gmap string value) k :
  k ≠ dst → copy_param src dst ps kwargs !! k = kwargs !! k.
Proof.
  intros Hk. unfold copy_param. destruct (ps !! src); [|done].
  by rewrite lookup_insert_ne.
Qed.

Lemma copy_param_eq src dst (ps kwargs : gmap string value) :
  kwargs !! dst = None → copy_param src dst ps kwargs !! dst = ps !! src.
Proof.
  intros Hk. unfold copy_param. destruct (ps !! src); [|done].
  by rewrite lookup_insert_eq.
Qed.

Ltac lookup_kwargs :=
  unfold crawl_kwargs;
  repeat (rewrite copy_param_ne by done);
  first [ apply lookup_empty
        | rewrite copy_param_eq; [done|];
          repeat (rewrite copy_param_ne by done); apply lookup_empty ].

Lemma crawl_kwargs_scrape_options (ps : gmap string value) :
  crawl_kwargs ps !! "scrape_options" = None.
Proof. lookup_kwargs. Qed.



Lemma try_except_value {A} (body : M A) (v : A) tr :
  try_except_ImportError body (mret v) tr =
    match body tr with
    | (Return a, tr') => (Return a, tr')
    | (Raise e, tr') => if is_ImportError e then (Return v, tr') else (Raise e, tr')
    end.
Proof.
  unfold try_except_ImportError. by destruct (body tr) as [[a|e] tr'].
Qed.

(** The options value handed to the call, or the error that ends the
    load: the outcome of the [try] statement with [fallback] as what the
    handler leaves in place. *)
Lemma try_make_ScrapeOptions w raw fallback tr :
  try_except_ImportError (make_ScrapeOptions w raw) (mret fallback) tr =
    match (make_ScrapeOptions w raw tr).1 with
    | Return so => (Return so, tr)
    | Raise e => if is_ImportError e then (Return fallback, tr) else (Raise e, tr)
    end.
Proof.
  rewrite try_except_value.
  pose proof (make_ScrapeOptions_trace w raw tr) as Htr.
  destruct (make_ScrapeOptions w raw tr) as [[so|e] tr1]; simpl in *; by subst.
Qed.

Lemma lazy_load_crawl w self tr :
  mode self = "crawl" → url self ≠ "" →
  lazy_load w self tr =
    match params self !! "scrapeOptions" with
    | None => crawl_call self (crawl_kwargs (params self)) tr
    | Some raw =>
        match (make_ScrapeOptions w raw tr).1 with
        | Return so =>
            crawl_call self (<["scrape_options" := so]> (crawl_kwargs (params self))) tr
        | Raise e =>
            if is_ImportError e then
              crawl_call self (<["scrape_options" := raw]> (crawl_kwargs (params self))) tr
            else (Raise e, tr)
        end
    end.
Proof.
  intros Hm Hu. rewrite lazy_load_unfold, (firecrawl_docs_crawl _ _ _ Hm Hu).
  unfold crawl_call.
  destruct (params self !! "scrapeOptions") as [raw|].
  - unfold mbind at 1. unfold M_bind at 1.
    unfold mbind at 1. unfold M_bind at 1.
    rewrite try_make_ScrapeOptions.
    destruct (make_ScrapeOptions w raw tr).1 as [so|e].
    + unfold mbind, M_bind, mret, M_ret, perform.
      by destruct (crawl_url _ _ _).
    + destruct (is_ImportError e); [|done].
      unfold mbind, M_bind, mret, M_ret, perform.
      by destruct (crawl_url _ _ _).
  - unfold mbind, M_bind, mret, M_ret, perform.
    by destruct (crawl_url _ _ _).
Qed.

Lemma crawl_call_trace self kwargs tr :
  (crawl_call self kwargs tr).2 = tr ++ [crawl_url_call (url self) kwargs].
Proof. unfold crawl_call. by destruct (crawl_url _ _ _). Qed.

(** ** Claims about the calls on the client *)





(** ** Claims about map and extract mode *)

Lemma page_content_of_plain m doc :
  m = "map" ∨ m = "extract" →
  page_content_of m doc = doc ∧ metadata_of m doc = VDict ∅.
Proof. by intros [-> | ->]. Qed.

Lemma documents_plain_strings m (contents : list string) :
  m = "map" ∨ m = "extract" →
  documents m (VStr <$> contents) =
    Return ((λ s, {| page_content := s; metadata := ∅ |})
              <$> filter (λ s, s ≠ "") contents).
Proof.
  intros Hm. induction contents as [|s rest IH]; [done|].
  rewrite fmap_cons, filter_cons.
  destruct (page_content_of_plain m (VStr s) Hm) as [Hc Hmd].
  destruct (decide (s ≠ "")) as [Hs|Hs].
  - rewrite documents_yield, Hc, Hmd, IH; [done|].
    rewrite Hc. simpl. by apply nonempty_true.
  - rewrite documents_skip; [done|].
    rewrite Hc. simpl. apply dec_stable in Hs. by subst.
Qed.

Lemma filter_plain m (items : list value) :
  m = "map" ∨ m = "extract" →
  filter (λ doc, truthy (page_content_of m doc)) items
  = filter (λ v, truthy v) items.
Proof.
  intros Hm. apply list_filter_iff. intros v.
  by destruct (page_content_of_plain m v Hm) as [-> _].
Qed.

Lemma emitted_plain m (items : list value) out :
  m = "map" ∨ m = "extract" →
  Forall2 (emitted_from m) items out →
  (λ d, VStr (page_content d)) <$> out = items ∧
  Forall (λ d, metadata d = ∅) out.
Proof.
  intros Hm. induction 1 as [|doc d items out [Hc Hmd] _ [IH1 IH2]]; [done|].
  destruct (page_content_of_plain m doc Hm) as [Hc' Hmd'].
  rewrite Hc' in Hc. rewrite Hmd' in Hmd. injection Hmd as Hmd.
  rewrite fmap_cons, IH1, <- Hc. split; [done|]. by constructor.
Qed.

(** C6. In map mode the items [map_url] returns are themselves the
    contents of the records, each with empty metadata, the empty ones
    left out: so it is for a response of strings, and whenever the load
    returns; an item that is not empty and not a string makes the load
    fail in the constructor of the record. In extract mode [extract] is
    called with the url in a one-element list and the string of its
    result is the one item. A map response of "a" and "b" gives the two
    records with these contents and empty metadata, in that order. *)
Theorem C6_map_extract_items (w : world) (self : FireCrawlLoader) (tr : list call) :
  url self ≠ "" →
  (mode self = "map" →
   ∀ items, map_url (app self) (url self) (params self) = Return items →
     (∀ contents : list string, items = VStr <$> contents →
        lazy_load w self tr =
          (Return ((λ s, {| page_content := s; metadata := ∅ |})
                     <$> filter (λ s, s ≠ "") contents),
           tr ++ [map_url_call (url self) (params self)])) ∧
     (∀ out, lazy_load w self tr =
               (Return out, tr ++ [map_url_call (url self) (params self)]) →
        (λ d, VStr (page_content d)) <$> out = filter (λ v, truthy v) items ∧
        Forall (λ d, metadata d = ∅) out) ∧
     (Exists (λ v, truthy v = true ∧ ∀ s, v ≠ VStr s) items →
        ∃ msg, lazy_load w self tr =
                 (Raise (ValidationError msg),
                  tr ++ [map_url_call (url self) (params self)]))) ∧
  (mode self = "extract" →
   ∀ extracted, extract (app self) [url self] (params self) = Return extracted →
     lazy_load w self tr =
       (Return (if nonempty (str_result (app self) extracted) then
                  [{| page_content := str_result (app self) extracted;
                      metadata := ∅ |}]
                else []),
        tr ++ [extract_call [url self] (params self)])) ∧
  (mode self = "map" →
   map_url (app self) (url self) (params self) = Return [VStr "a"; VStr "b"] →
     lazy_load w self tr =
       (Return [{| page_content := "a"; metadata := ∅ |};
                {| page_content := "b"; metadata := ∅ |}],
        tr ++ [map_url_call (url self) (params self)])).
Proof.
  intros Hu.
  assert (mode self = "map" →
          ∀ items, map_url (app self) (url self) (params self) = Return items →
            lazy_load w self tr =
              (documents (mode self) items,
               tr ++ [map_url_call (url self) (params self)])) as Hmap.
  { intros Hm items Hitems.
    by rewrite lazy_load_unfold, (firecrawl_docs_map _ _ _ Hm Hu), Hitems. }
  split_and!.
  - intros Hm items Hitems. rewrite (Hmap Hm _ Hitems). split_and!.
    + intros contents ->. by rewrite documents_plain_strings by auto.
    + intros out [= Hout]. apply documents_Return in Hout.
      rewrite filter_plain in Hout by auto. by apply (emitted_plain (mode self)); auto.
    + intros Hex. eexists. f_equal. apply documents_Raise.
      apply Exists_exists in Hex as (v & Hin & Ht & Hv).
      apply Exists_exists. exists v. split; [done|].
      unfold constructible.
      destruct (page_content_of_plain (mode self) v) as [-> ->]; [auto|].
      rewrite Ht. destruct v; try done. by destruct (Hv s).
  - intros Hm extracted Hex.
    rewrite lazy_load_unfold, (firecrawl_docs_extract _ _ _ Hm Hu), Hex.
    rewrite (documents_plain_strings _ [str_result (app self) extracted]) by auto.
    rewrite filter_cons, filter_nil. unfold nonempty.
    case_decide as Hs.
    + apply nonempty_true in Hs. unfold nonempty in Hs. by rewrite Hs.
    + by rewrite Hs.
  - intros Hm Hitems. rewrite (Hmap Hm _ Hitems).
    by rewrite (documents_plain_strings _ ["a"; "b"]) by auto.
Qed.

Lemma C6_map_extract_items_witness :
  url (loader "map" ∅) ≠ "" ∧
  lazy_load world_with_key (loader "map" ∅) [] =
    (Return [{| page_content := "a"; metadata := ∅ |};
             {| page_content := "b"; metadata := ∅ |}],
     [map_url_call "https://firecrawl.dev" ∅]) ∧
  lazy_load world_with_key (loader "extract" ∅) [] =
    (Return [{| page_content := "{'title': 't'}"; metadata := ∅ |}],
     [extract_call ["https://firecrawl.dev"] ∅]).
Proof.
  assert (url (loader "map" ∅) ≠ "") as Hu by done.
  split; [exact Hu|]. split.
  - exact (proj2 (proj2 (C6_map_extract_items world_with_key (loader "map" ∅) [] Hu))
             eq_refl eq_refl).
  - exact (proj1 (proj2 (C6_map_extract_items world_with_key (loader "extract" ∅) [] Hu))
             eq_refl _ eq_refl).
Defined.

(** ** Claims about the scrape options *)

Lemma make_ScrapeOptions_ImportError w raw tr :
  ScrapeOptions_of w = None →
  ∃ msg, (make_ScrapeOptions w raw tr).1 = Raise (ImportError msg).
Proof.
  intros Hw. destruct (make_ScrapeOptions_unavailable w raw tr Hw) as [msg ->].
  by exists msg.
Qed.

(** C8, as amended. In crawl mode, with a scrapeOptions mapping in
    [params]: when [ScrapeOptions] can be imported and accepts the
    mapping, [crawl_url] receives the options value built from it; when
    the import fails, or the class raises an [ImportError], [crawl_url]
    receives the raw mapping; any other exception of the class ends the
    load with that exception, before [crawl_url] is called. *)
Theorem C8_scrape_options_fallback (w : world) (self : FireCrawlLoader)
    (tr : list call) (d : gmap string value) :
  mode self = "crawl" → url self ≠ "" →
  params self !! "scrapeOptions" = Some (VDict d) →
  (∀ cls so, ScrapeOptions_of w = Some cls → cls d = Return so →
     lazy_load w self tr =
       crawl_call self (<["scrape_options" := so]> (crawl_kwargs (params self))) tr ∧
     (lazy_load w self tr).2 =
       tr ++ [crawl_url_call (url self)
                (<["scrape_options" := so]> (crawl_kwargs (params self)))]) ∧
  (ScrapeOptions_of w = None ∨
   (∃ cls msg, ScrapeOptions_of w = Some cls ∧ cls d = Raise (ImportError msg)) →
     lazy_load w self tr =
       crawl_call self
         (<["scrape_options" := VDict d]> (crawl_kwargs (params self))) tr ∧
     (lazy_load w self tr).2 =
       tr ++ [crawl_url_call (url self)
                (<["scrape_options" := VDict d]> (crawl_kwargs (params self)))]) ∧
  (∀ cls e, ScrapeOptions_of w = Some cls → cls d = Raise e →
     is_ImportError e = false →
     lazy_load w self tr = (Raise e, tr)).
Proof.
  intros Hm Hu Hso. rewrite (lazy_load_crawl _ _ _ Hm Hu), Hso.
  split; [|split].
  - intros cls so Hcls Hd.
    rewrite (make_ScrapeOptions_available _ _ _ _ Hcls), Hd. simpl.
    split; [done|apply crawl_call_trace].
  - intros [Hw|(cls & msg & Hcls & Hd)].
    + destruct (make_ScrapeOptions_ImportError w (VDict d) tr Hw) as [msg ->].
      simpl. split; [done|apply crawl_call_trace].
    + rewrite (make_ScrapeOptions_available _ _ _ _ Hcls), Hd. simpl.
      split; [done|apply crawl_call_trace].
  - intros cls e Hcls Hd He.
    rewrite (make_ScrapeOptions_available _ _ _ _ Hcls), Hd. simpl.
    by rewrite He.
Qed.

Lemma C8_scrape_options_fallback_witness :
  ScrapeOptions_of world_old_package = None ∧
  (lazy_load world_old_package
     (loader "crawl"
        {[ "scrapeOptions" := VDict {[ "formats" := VList [VStr "markdown"] ]} ]})
     []).2 =
    [crawl_url_call "https://firecrawl.dev"
       {[ "scrape_options" := VDict {[ "formats" := VList [VStr "markdown"] ]} ]}].
Proof.
  split; [reflexivity|].
  destruct (C8_scrape_options_fallback world_old_package
              (loader "crawl"
                 {[ "scrapeOptions" :=
                      VDict {[ "formats" := VList [VStr "markdown"] ]} ]})
              [] {[ "formats" := VList [VStr "markdown"] ]} eq_refl)
    as (_ & H & _); [done|reflexivity|].
  destruct (H (or_introl eq_refl)) as [_ Htrace]. exact Htrace.
Defined.

(** C8 as stated fails: [ScrapeOptions] is imported but rejects the
    mapping with a validation error, so that the options value cannot be
    constructed; the load then fails with that error and [crawl_url] is
    not called, with neither the options nor the raw mapping. *)
Lemma C8_counterexample :
  ScrapeOptions_of world_with_key = Some mock_ScrapeOptions ∧
  mock_ScrapeOptions {[ "formats" := VStr "markdown" ]} =
    Raise (ValueError "1 validation error for ScrapeOptions") ∧
  lazy_load world_with_key
    (loader "crawl" {[ "scrapeOptions" := VDict {[ "formats" := VStr "markdown" ]} ]})
    [] =
    (Raise (ValueError "1 validation error for ScrapeOptions"), []).
Proof. split; [|split]; reflexivity. Qed.

(** C10. In scrape mode, with scrapeOptions in [params] and
    [ScrapeOptions] not importable, [scrape_url] is called with
    [scrape_options=None]: the options of [params] are dropped, no error
    comes from them, and the outcome is that of the call. Crawl mode, in
    the same situation, passes the raw value on instead. *)
Theorem C10_scrape_options_dropped (w : world) (self : FireCrawlLoader)
    (tr : list call) (raw : value) :
  mode self = "scrape" →
  params self !! "scrapeOptions" = Some raw →
  ScrapeOptions_of w = None →
  lazy_load w self tr =
    match scrape_url (app self) (url self) VNone with
    | Return doc =>
        (documents "scrape" [doc], tr ++ [scrape_url_call (url self) VNone])
    | Raise e => (Raise e, tr ++ [scrape_url_call (url self) VNone])
    end ∧
  (∀ other, mode other = "crawl" → url other ≠ "" →
     params other !! "scrapeOptions" = Some raw →
     (lazy_load w other tr).2 =
       tr ++ [crawl_url_call (url other)
                (<["scrape_options" := raw]> (crawl_kwargs (params other)))]).
Proof.
  intros Hm Hso Hw.
  destruct (make_ScrapeOptions_ImportError w raw tr Hw) as [msg Hmsg].
  split.
  - unfold lazy_load. unfold mbind at 1. unfold M_bind at 1.
    rewrite (firecrawl_docs_scrape _ _ _ Hm), Hso.
    unfold mbind at 1. unfold M_bind at 1.
    rewrite try_make_ScrapeOptions, Hmsg. simpl.
    unfold mbind, M_bind, mret, M_ret, perform. rewrite Hm.
    by destruct (scrape_url _ _ _).
  - intros other Hmo Huo Hso'.
    rewrite (lazy_load_crawl _ _ _ Hmo Huo), Hso', Hmsg. simpl.
    apply crawl_call_trace.
Qed.

Lemma C10_scrape_options_dropped_witness :
  ScrapeOptions_of world_old_package = None ∧
  lazy_load world_old_package
    (loader "scrape"
       {[ "scrapeOptions" := VDict {[ "formats" := VList [VStr "html"] ]} ]}) [] =
    (Return [{| page_content := "abc"; metadata := ∅ |}],
     [scrape_url_call "https://firecrawl.dev" VNone]).
Proof.
  split; [reflexivity|].
  exact (proj1 (C10_scrape_options_dropped world_old_package
                  (loader "scrape"
                     {[ "scrapeOptions" :=
                          VDict {[ "formats" := VList [VStr "html"] ]} ]})
                  [] (VDict {[ "formats" := VList [VStr "html"] ]})
                  eq_refl eq_refl eq_refl)).
Defined.

(** ** The run of each mode *)


Lemma crawl_call_run self kwargs tr :
  crawl_call self kwargs tr =
    run_call self (crawl_url_call (url self) kwargs)
      (crawl_url (app self) (url self) kwargs)
      (λ r, match data r with Some items => items | None => [] end) tr.
Proof. reflexivity. Qed.

Lemma lazy_load_scrape w self tr :
  mode self = "scrape" →
  lazy_load w self tr =
    let call so := run_call self (scrape_url_call (url self) so)
                     (scrape_url (app self) (url self) so) (λ doc, [doc]) tr in
    match params self !! "scrapeOptions" with
    | None => call VNone
    | Some raw =>
        match (make_ScrapeOptions w raw tr).1 with
        | Return so => call so
        | Raise e => if is_ImportError e then call VNone else (Raise e, tr)
        end
    end.
Proof.
  intros Hm. unfold lazy_load. unfold mbind at 1. unfold M_bind at 1.
  rewrite (firecrawl_docs_scrape _ _ _ Hm). unfold run_call. simpl.
  destruct (params self !! "scrapeOptions") as [raw|].
  - unfold mbind at 1. unfold M_bind at 1.
    rewrite try_make_ScrapeOptions.
    destruct (make_ScrapeOptions w raw tr).1 as [so|e].
    + unfold mbind, M_bind, mret, M_ret, perform.
      by destruct (scrape_url _ _ _).
    + destruct (is_ImportError e); [|done].
      unfold mbind, M_bind, mret, M_ret, perform.
      by destruct (scrape_url _ _ _).
  - unfold mbind, M_bind, mret, M_ret, perform.
    by destruct (scrape_url _ _ _).
Qed.

Lemma lazy_load_map w self tr :
  mode self = "map" → url self ≠ "" →
  lazy_load w self tr =
    run_call self (map_url_call (url self) (params self))
      (map_url (app self) (url self) (params self)) (λ items, items) tr.
Proof.
  intros Hm Hu. rewrite lazy_load_unfold, (firecrawl_docs_map _ _ _ Hm Hu).
  unfold run_call. by destruct (map_url _ _ _).
Qed.

Lemma lazy_load_extract w self tr :
  mode self = "extract" → url self ≠ "" →
  lazy_load w self tr =
    run_call self (extract_call [url self] (params self))
      (extract (app self) [url self] (params self))
      (λ extracted, [VStr (str_result (app self) extracted)]) tr.
Proof.
  intros Hm Hu. rewrite lazy_load_unfold, (firecrawl_docs_extract _ _ _ Hm Hu).
  unfold run_call. by destruct (extract _ _ _).
Qed.

Lemma lazy_load_search w self tr :
  mode self = "search" →
  lazy_load w self tr =
    run_call self
      (search_call (default VNone (params self !! "query")) (params self))
      (search (app self) (default VNone (params self !! "query")) (params self))
      (λ items, items) tr.
Proof.
  intros Hm. rewrite lazy_load_unfold, (firecrawl_docs_search _ _ _ Hm).
  unfold run_call. by destruct (search _ _ _).
Qed.

Lemma lazy_load_url_missing w self tr :
  mode self ∈ ["crawl"; "map"; "extract"] → url self = "" →
  ∃ msg, lazy_load w self tr = (Raise (ValueError msg), tr).
Proof.
  intros Hm Hu. rewrite lazy_load_unfold. unfold firecrawl_docs. rewrite Hu.
  rewrite !elem_of_cons, elem_of_nil in Hm.
  destruct Hm as [-> | [-> | [-> | []]]]; simpl; by eexists.
Qed.

Lemma lazy_load_invalid w self tr :
  mode self ∉ modes →
  ∃ msg, lazy_load w self tr = (Raise (ValueError msg), tr).
Proof.
  intros Hm. destruct (firecrawl_docs_invalid w self tr Hm) as [msg Hmsg].
  exists msg. by rewrite lazy_load_unfold, Hmsg.
Qed.

Lemma modes_cases m :
  m ∈ modes ↔
  m = "scrape" ∨ m = "crawl" ∨ m = "map" ∨ m = "extract" ∨ m = "search".
Proof. unfold modes. rewrite !elem_of_cons, elem_of_nil. tauto. Qed.

(** ** Further properties of the constructor *)

Lemma get_from_env_Return w key env_key v :
  get_from_env w key env_key None = Return v → v ≠ "".
Proof.
  unfold get_from_env. destruct (environ w !! env_key) as [x|]; [|done].
  destruct (nonempty x) eqn:Hx; [|done].
  intros [= <-]. by apply nonempty_true.
Qed.

Lemma init_empty_url w pkg api_key api_url m ps tr :
  firecrawl w = Some pkg →
  ∃ msg, __init__ w "" api_key api_url m ps tr = (Raise (ValueError msg), tr).
Proof.
  intros Hpkg. unfold __init__. rewrite Hpkg. case_bool_decide; by eexists.
Qed.

(** Every run of the constructor: it fails without a call, or it has
    passed the validation and hands a non-empty key to the client. *)
Lemma init_run w u api_key api_url m ps tr :
  (∃ e, __init__ w u api_key api_url m ps tr = (Raise e, tr)) ∨
  (∃ pkg key,
     firecrawl w = Some pkg ∧ m ∈ modes ∧ u ≠ "" ∧ key ≠ "" ∧
     __init__ w u api_key api_url m ps tr = construct pkg u key api_url m ps tr).
Proof.
  destruct (firecrawl w) as [pkg|] eqn:Hpkg;
    [|left; unfold __init__; rewrite Hpkg; by eexists].
  destruct (decide (m ∈ modes)) as [Hm|Hm];
    [|left; destruct (init_invalid_mode w pkg u api_url m ps tr Hpkg api_key Hm)
              as [msg ->]; by eexists].
  destruct (decide (u = "")) as [->|Hu];
    [left; destruct (init_empty_url w pkg api_key api_url m ps tr Hpkg)
             as [msg ->]; by eexists|].
  assert (api_key = None ∨ api_key = Some "" →
          (∃ e, __init__ w u api_key api_url m ps tr = (Raise e, tr)) ∨
          (∃ key, key ≠ "" ∧
             __init__ w u api_key api_url m ps tr
             = construct pkg u key api_url m ps tr)) as Henv.
  { intros Hk. rewrite (init_env_key w pkg u api_url m ps tr Hpkg Hm Hu _ Hk).
    destruct (get_from_env w "api_key" "FIRECRAWL_API_KEY" None) as [v|e] eqn:Hv.
    - right. exists v. split; [by eapply get_from_env_Return|done].
    - left. by eexists. }
  destruct api_key as [k|]; [destruct (decide (k = "")) as [->|Hk]|].
  - destruct Henv as [?|(key & ? & ?)]; [auto|auto|right; by exists pkg, key].
  - right. exists pkg, k. split_and!; try done.
    by apply init_explicit_key.
  - destruct Henv as [?|(key & ? & ?)]; [auto|auto|right; by exists pkg, key].
Qed.

Lemma construct_Return pkg u key api_url m ps tr self tr' :
  construct pkg u key api_url m ps tr = (Return self, tr') →
  url self = u ∧ mode self = m ∧ params self = default ∅ ps ∧
  new_FirecrawlApp pkg key api_url = Return (app self) ∧
  tr' = tr ++ [FirecrawlApp_call key api_url].
Proof.
  unfold construct. destruct (new_FirecrawlApp pkg key api_url) as [client|e];
    [|done].
  intros [= <- <-]. simpl. split_and!; try done.
  destruct ps as [p|]; [|done]. simpl.
  case_bool_decide as Hd; [|done]. apply dom_empty_inv_L in Hd. by subst.
Qed.

(** X1. The constructor builds the client only after all its checks have
    passed. Without the [firecrawl] package it raises an [ImportError]
    whatever its arguments; and in every run it either fails without any
    call, or the package is installed, the mode is one of the five, the
    url is not empty, and the one call made is the client's constructor,
    with a key that is not empty and the [api_url] as given. *)
Theorem X1_client_built_after_validation (w : world) (u : string)
    (api_key api_url : option string) (m : string)
    (ps : option (gmap string value)) (tr : list call) :
  (firecrawl w = None →
   ∃ msg, __init__ w u api_key api_url m ps tr = (Raise (ImportError msg), tr)) ∧
  ((∃ e, __init__ w u api_key api_url m ps tr = (Raise e, tr)) ∨
   (∃ pkg key,
      firecrawl w = Some pkg ∧ m ∈ modes ∧ u ≠ "" ∧ key ≠ "" ∧
      (__init__ w u api_key api_url m ps tr).2
      = tr ++ [FirecrawlApp_call key api_url])).
Proof.
  split.
  - intros Hpkg. unfold __init__. rewrite Hpkg. by eexists.
  - destruct (init_run w u api_key api_url m ps tr)
      as [?|(pkg & key & ? & ? & ? & ? & Hrun)]; [by left|].
    right. exists pkg, key. split_and!; try done.
    rewrite Hrun. apply construct_trace.
Qed.

Lemma X1_client_built_after_validation_witness :
  firecrawl world_without_package = None ∧
  ∃ msg, __init__ world_without_package "" None None "sitemap" None [] =
           (Raise (ImportError msg), []).
Proof.
  split; [reflexivity|].
  exact (proj1 (X1_client_built_after_validation world_without_package ""
                  None None "sitemap" None []) eq_refl).
Defined.

(** X2. A loader that the constructor returns holds the url and the mode
    it was given and the given [params] (empty when none were given);
    its mode is one of the five and its url is not empty; and exactly one
    call was made, the construction of the client it holds. *)
Theorem X2_constructed_loader_fields (w : world) (u : string)
    (api_key api_url : option string) (m : string)
    (ps : option (gmap string value)) (tr tr' : list call)
    (self : FireCrawlLoader) :
  __init__ w u api_key api_url m ps tr = (Return self, tr') →
  url self = u ∧ mode self = m ∧ params self = default ∅ ps ∧
  mode self ∈ modes ∧ url self ≠ "" ∧
  ∃ pkg key, firecrawl w = Some pkg ∧
             new_FirecrawlApp pkg key api_url = Return (app self) ∧
             tr' = tr ++ [FirecrawlApp_call key api_url].
Proof.
  intros Hrun.
  destruct (init_run w u api_key api_url m ps tr)
    as [[e He]|(pkg & key & Hpkg & Hm & Hu & Hk & Hc)]; [congruence|].
  rewrite Hc in Hrun.
  destruct (construct_Return _ _ _ _ _ _ _ _ _ Hrun) as (-> & -> & -> & Happ & ->).
  split_and!; try done. by exists pkg, key.
Qed.

Lemma X2_constructed_loader_fields_witness :
  ∃ self,
    __init__ world_with_key "https://firecrawl.dev" None (Some "http://localhost:3002")
      "map" (Some {[ "limit" := VInt 5 ]}) [] =
      (Return self, [FirecrawlApp_call "fc-env" (Some "http://localhost:3002")]) ∧
    url self = "https://firecrawl.dev" ∧ mode self = "map" ∧
    params self = {[ "limit" := VInt 5 ]}.
Proof.
  eexists. split; [reflexivity|].
  destruct (X2_constructed_loader_fields world_with_key "https://firecrawl.dev"
              None (Some "http://localhost:3002") "map"
              (Some {[ "limit" := VInt 5 ]}) [] _ _ eq_refl)
    as (Hu & Hm & Hp & _).
  split_and!; [exact Hu|exact Hm|exact Hp].
Defined.

(** ** Further properties of the dispatch *)

Lemma run_call_pair {A} self c (outcome : result A) items tr :
  run_call self c outcome items tr =
    ((run_call self c outcome items tr).1, tr ++ [c]).
Proof. unfold run_call. by destruct outcome. Qed.

(** Every run of [lazy_load]: it fails without a call, or it makes one
    call, which belongs to the loader's mode. *)
Lemma lazy_load_cases w self tr :
  (∃ e, lazy_load w self tr = (Raise e, tr)) ∨
  (∃ c r, lazy_load w self tr = (r, tr ++ [c]) ∧ call_mode c = Some (mode self)).
Proof.
  destruct (decide (mode self ∈ modes)) as [Hm|Hm];
    [|left; destruct (lazy_load_invalid w self tr Hm) as [msg ->]; by eexists].
  assert (mode self ∈ ["crawl"; "map"; "extract"] → url self = "" →
          ∃ e, lazy_load w self tr = (Raise e, tr)) as Hmissing.
  { intros Hin Hu.
    destruct (lazy_load_url_missing w self tr Hin Hu) as [msg ->]. by eexists. }
  apply modes_cases in Hm as [Hm|[Hm|[Hm|[Hm|Hm]]]].
  - rewrite (lazy_load_scrape _ _ _ Hm). cbv zeta.
    destruct (params self !! "scrapeOptions") as [raw|];
      [destruct (make_ScrapeOptions w raw tr).1 as [so|e];
       [|destruct (is_ImportError e); [|left; by eexists]]|];
      right; do 2 eexists; (split; [apply run_call_pair|by rewrite Hm]).
  - destruct (decide (url self = "")) as [Hu|Hu];
      [left; apply Hmissing; [rewrite Hm, !elem_of_cons; tauto|done]|].
    rewrite (lazy_load_crawl _ _ _ Hm Hu).
    destruct (params self !! "scrapeOptions") as [raw|];
      [destruct (make_ScrapeOptions w raw tr).1 as [so|e];
       [|destruct (is_ImportError e); [|left; by eexists]]|];
      right; do 2 eexists;
      (split; [rewrite crawl_call_run; apply run_call_pair|by rewrite Hm]).
  - destruct (decide (url self = "")) as [Hu|Hu];
      [left; apply Hmissing; [rewrite Hm, !elem_of_cons; tauto|done]|].
    rewrite (lazy_load_map _ _ _ Hm Hu).
    right; do 2 eexists; (split; [apply run_call_pair|by rewrite Hm]).
  - destruct (decide (url self = "")) as [Hu|Hu];
      [left; apply Hmissing; [rewrite Hm, !elem_of_cons; tauto|done]|].
    rewrite (lazy_load_extract _ _ _ Hm Hu).
    right; do 2 eexists; (split; [apply run_call_pair|by rewrite Hm]).
  - rewrite (lazy_load_search _ _ _ Hm).
    right; do 2 eexists; (split; [apply run_call_pair|by rewrite Hm]).
Qed.

(** X4. A load makes at most one call on the client, and never builds a
    client: [lazy_load] either fails with the trace unchanged, or it
    appends exactly one call to the trace, and this call is the operation
    of the loader's mode. A load that returns documents has made its
    call. *)
Theorem X4_at_most_one_call (w : world) (self : FireCrawlLoader) (tr : list call) :
  (∃ e, lazy_load w self tr = (Raise e, tr)) ∨
  (∃ c, (lazy_load w self tr).2 = tr ++ [c] ∧ call_mode c = Some (mode self)).
Proof.
  destruct (lazy_load_cases w self tr) as [?|(c & r & Hrun & Hc)]; [by left|].
  right. exists c. by rewrite Hrun.
Qed.





(** X6. An error of the client comes out of [lazy_load] unchanged: when
    the operation of the mode raises, the load fails with that very
    exception, after the call and without any document. (Scrape and
    crawl mode are taken without scrapeOptions, so that the call is
    reached.) *)
Theorem X6_client_error_propagates (w : world) (self : FireCrawlLoader)
    (tr : list call) (e : exn) :
  url self ≠ "" → params self !! "scrapeOptions" = None →
  (mode self = "scrape" → scrape_url (app self) (url self) VNone = Raise e →
   lazy_load w self tr = (Raise e, tr ++ [scrape_url_call (url self) VNone])) ∧
  (mode self = "crawl" →
   crawl_url (app self) (url self) (crawl_kwargs (params self)) = Raise e →
   lazy_load w self tr =
     (Raise e, tr ++ [crawl_url_call (url self) (crawl_kwargs (params self))])) ∧
  (mode self = "map" → map_url (app self) (url self) (params self) = Raise e →
   lazy_load w self tr =
     (Raise e, tr ++ [map_url_call (url self) (params self)])) ∧
  (mode self = "extract" → extract (app self) [url self] (params self) = Raise e →
   lazy_load w self tr =
     (Raise e, tr ++ [extract_call [url self] (params self)])) ∧
  (mode self = "search" →
   search (app self) (default VNone (params self !! "query")) (params self)
   = Raise e →
   lazy_load w self tr =
     (Raise e, tr ++ [search_call (default VNone (params self !! "query"))
                        (params self)])).
Proof.
  intros Hu Hso. split_and!; intros Hm He.
  - rewrite (lazy_load_scrape _ _ _ Hm), Hso. unfold run_call. by rewrite He.
  - rewrite (lazy_load_crawl _ _ _ Hm Hu), Hso. unfold crawl_call. by rewrite He.
  - rewrite (lazy_load_map _ _ _ Hm Hu). unfold run_call. by rewrite He.
  - rewrite (lazy_load_extract _ _ _ Hm Hu). unfold run_call. by rewrite He.
  - rewrite (lazy_load_search _ _ _ Hm). unfold run_call. by rewrite He.
Qed.

Lemma X6_client_error_propagates_witness :
  lazy_load world_with_key
    {| app := failing_app; url := "https://firecrawl.dev"; mode := "crawl";
       params := {[ "limit" := VInt 3 ]} |} [] =
    (Raise (ClientError "402 Payment Required"),
     [crawl_url_call "https://firecrawl.dev" {[ "limit" := VInt 3 ]}]).
Proof.
  destruct (X6_client_error_propagates world_with_key
              {| app := failing_app; url := "https://firecrawl.dev";
                 mode := "crawl"; params := {[ "limit" := VInt 3 ]} |} []
              (ClientError "402 Payment Required"))
    as (_ & H & _); [done|reflexivity|].
  exact (H eq_refl eq_refl).
Defined.

(** X7. A crawl response without a [data] attribute is an empty result,
    not an error: the load returns no document, as it does for a
    response whose [data] is the empty list. *)
Theorem X7_crawl_without_data (w : world) (self : FireCrawlLoader)
    (tr : list call) (response : CrawlResponse) :
  mode self = "crawl" → url self ≠ "" →
  params self !! "scrapeOptions" = None →
  crawl_url (app self) (url self) (crawl_kwargs (params self)) = Return response →
  data response = None ∨ data response = Some [] →
  lazy_load w self tr =
    (Return [], tr ++ [crawl_url_call (url self) (crawl_kwargs (params self))]).
Proof.
  intros Hm Hu Hso Hresp Hdata.
  rewrite (lazy_load_crawl _ _ _ Hm Hu), Hso. unfold crawl_call.
  rewrite Hresp. by destruct Hdata as [-> | ->].
Qed.

Lemma X7_crawl_without_data_witness :
  lazy_load world_with_key
    {| app := app_without_data; url := "https://firecrawl.dev"; mode := "crawl";
       params := ∅ |} [] =
    (Return [], [crawl_url_call "https://firecrawl.dev" ∅]).
Proof.
  exact (X7_crawl_without_data world_with_key
           {| app := app_without_data; url := "https://firecrawl.dev";
              mode := "crawl"; params := ∅ |} [] {| data := None |}
           eq_refl ltac:(done) eq_refl eq_refl (or_introl eq_refl)).
Defined.

(** ** Further properties of the scrape options *)



Lemma make_ScrapeOptions_not_a_mapping w cls raw tr :
  ScrapeOptions_of w = Some cls → not_a_mapping raw →
  ∃ msg, make_ScrapeOptions w raw tr = (Raise (TypeError msg), tr).
Proof.
  unfold ScrapeOptions_of, make_ScrapeOptions, import_ScrapeOptions.
  destruct (firecrawl w) as [pkg|]; simpl; [|done].
  intros -> Hraw. destruct raw; simpl in Hraw; try done; by eexists.
Qed.

(** X13. A scrapeOptions value that is not a mapping (null, a number, a
    string, a list) is not treated as absent: when [ScrapeOptions] can
    be imported, scrape mode and crawl mode both fail with a [TypeError]
    from unpacking it, before any call on the client. *)
Theorem X13_scrape_options_not_a_mapping (w : world) (self : FireCrawlLoader)
    (tr : list call) (raw : value)
    (cls : gmap string value → result value) :
  mode self = "scrape" ∨ (mode self = "crawl" ∧ url self ≠ "") →
  params self !! "scrapeOptions" = Some raw →
  not_a_mapping raw →
  ScrapeOptions_of w = Some cls →
  ∃ msg, lazy_load w self tr = (Raise (TypeError msg), tr).
Proof.
  intros Hm Hso Hraw Hcls.
  destruct (make_ScrapeOptions_not_a_mapping w cls raw tr Hcls Hraw) as [msg Hmsg].
  exists msg. destruct Hm as [Hm|[Hm Hu]].
  - rewrite (lazy_load_scrape _ _ _ Hm), Hso, Hmsg. done.
  - rewrite (lazy_load_crawl _ _ _ Hm Hu), Hso, Hmsg. done.
Qed.

Lemma X13_scrape_options_not_a_mapping_witness :
  ∃ msg,
    lazy_load world_with_key (loader "scrape" {[ "scrapeOptions" := VNone ]}) [] =
      (Raise (TypeError msg), []).
Proof.
  exact (X13_scrape_options_not_a_mapping world_with_key
           (loader "scrape" {[ "scrapeOptions" := VNone ]}) [] VNone
           mock_ScrapeOptions (or_introl eq_refl) eq_refl I eq_refl).
Defined.

(** ** Which of [params] a load depends on *)

Lemma crawl_kwargs_ext (ps1 ps2 : gmap string value) :
  (∀ k, k ∈ crawl_keys.*1 → ps1 !! k = ps2 !! k) →
  crawl_kwargs ps1 = crawl_kwargs ps2.
Proof.
  intros Hk. unfold crawl_kwargs, copy_param.
  rewrite !Hk by (unfold crawl_keys; simpl; rewrite !elem_of_cons; tauto).
  done.
Qed.

(** X9. Scrape mode reads nothing of [params] but scrapeOptions, and
    crawl mode nothing but scrapeOptions and the seven keys it
    translates: two loaders with the same client, url and mode that agree
    on these keys load the same, call and documents, whatever else their
    [params] hold. *)
Theorem X9_unread_params_ignored (w : world) (self other : FireCrawlLoader)
    (tr : list call) :
  app self = app other → url self = url other → mode self = mode other →
  (mode self = "scrape" →
   params self !! "scrapeOptions" = params other !! "scrapeOptions" →
   lazy_load w self tr = lazy_load w other tr) ∧
  (mode self = "crawl" →
   (∀ k, k ∈ crawl_param_keys → params self !! k = params other !! k) →
   lazy_load w self tr = lazy_load w other tr).
Proof.
  intros Happ Hurl Hmode. split.
  - intros Hm Hso.
    rewrite (lazy_load_scrape _ _ _ Hm).
    rewrite (lazy_load_scrape w other) by congruence.
    unfold run_call. by rewrite Happ, Hurl, Hmode, Hso.
  - intros Hm Hk. rewrite !lazy_load_unfold. unfold firecrawl_docs.
    rewrite <- Hmode, <- Hurl, <- Happ, Hm. simpl.
    rewrite <- (crawl_kwargs_ext (params self) (params other))
      by (intros k Hin; apply Hk; by apply list_elem_of_further).
    rewrite <- (Hk "scrapeOptions") by apply list_elem_of_here.
    done.
Qed.

Lemma X9_unread_params_ignored_witness :
  lazy_load world_with_key
    (loader "scrape" {[ "formats" := VList [VStr "html"]; "timeout" := VInt 30 ]}) [] =
  lazy_load world_with_key (loader "scrape" ∅) [] ∧
  lazy_load world_with_key
    (loader "crawl" {[ "limit" := VInt 3; "crawlerOptions" := VDict ∅ ]}) [] =
  lazy_load world_with_key (loader "crawl" {[ "limit" := VInt 3 ]}) [].
Proof.
  split.
  - exact (proj1 (X9_unread_params_ignored world_with_key
                    (loader "scrape"
                       {[ "formats" := VList [VStr "html"]; "timeout" := VInt 30 ]})
                    (loader "scrape" ∅) [] eq_refl eq_refl eq_refl)
             eq_refl eq_refl).
  - apply (X9_unread_params_ignored world_with_key
             (loader "crawl" {[ "limit" := VInt 3; "crawlerOptions" := VDict ∅ ]})
             (loader "crawl" {[ "limit" := VInt 3 ]}) [] eq_refl eq_refl eq_refl);
      [reflexivity|].
    intros k Hk. unfold crawl_param_keys, crawl_keys in Hk. simpl in Hk.
    rewrite !elem_of_cons, elem_of_nil in Hk.
    destruct Hk as [->|[->|[->|[->|[->|[->|[->|[->|[]]]]]]]]]; reflexivity.
Defined.

(** ** Further properties of the loop *)

Lemma documents_app m xs ys :
  documents m (xs ++ ys) = followed_by (documents m xs) (documents m ys).
Proof.
  induction xs as [|x xs IH].
  - simpl. by destruct (documents m ys).
  - rewrite <- app_comm_cons.
    destruct (truthy (page_content_of m x)) eqn:Hc.
    + rewrite !(documents_yield _ _ _ Hc), IH.
      destruct (new_Document _ _) as [d|e]; [|done].
      destruct (documents m xs) as [a|e]; [|done].
      by destruct (documents m ys).
    + by rewrite !(documents_skip _ _ _ Hc).
Qed.

Lemma documents_length m docs out :
  documents m docs = Return out → (List.length out ≤ List.length docs)%nat.
Proof.
  intros Hout. apply documents_Return, Forall2_length in Hout.
  rewrite <- Hout. apply length_filter.
Qed.

(** X10. The loop works item by item: the outcome for a sequence of
    items followed by another is the outcome for the first followed by
    that for the second. So when the load of the whole returns, what a
    consumer has read after a prefix of the items is a prefix of the
    whole output, and there are never more documents than items. *)
Theorem X10_documents_item_by_item (m : string) (xs ys : list value) :
  documents m (xs ++ ys) = followed_by (documents m xs) (documents m ys) ∧
  (∀ out, documents m (xs ++ ys) = Return out →
     ∃ first, documents m xs = Return first ∧ first `prefix_of` out) ∧
  (∀ out, documents m xs = Return out →
     (List.length out ≤ List.length xs)%nat).
Proof.
  split; [apply documents_app|]. split.
  - intros out. rewrite documents_app.
    destruct (documents m xs) as [a|e]; [|done].
    destruct (documents m ys) as [b|e]; [|done].
    intros [= <-]. exists a. split; [done|]. by apply prefix_app_r.
  - apply documents_length.
Qed.

Lemma X10_documents_item_by_item_witness :
  documents "crawl" (crawl_items ++ [item [("html", VStr "<p>last</p>")]]) =
    Return [{| page_content := "first"; metadata := ∅ |};
            {| page_content := "second"; metadata := {[ "title" := VStr "t" ]} |};
            {| page_content := "<p>last</p>"; metadata := ∅ |}] ∧
  ∃ first, documents "crawl" crawl_items = Return first ∧
           first `prefix_of`
             [{| page_content := "first"; metadata := ∅ |};
              {| page_content := "second"; metadata := {[ "title" := VStr "t" ]} |};
              {| page_content := "<p>last</p>"; metadata := ∅ |}].
Proof.
  split; [reflexivity|].
  exact (proj1 (proj2 (X10_documents_item_by_item "crawl" crawl_items
                         [item [("html", VStr "<p>last</p>")]])) _ eq_refl).
Defined.

(** X11. In scrape, crawl and search mode an item that is not an object
    (a string, a dictionary, a list) has none of the attributes the loop
    asks for: it gives no document, and a response of such items gives
    none at all. *)
Theorem X11_non_object_items_dropped (m : string) (docs : list value) :
  m ∈ ["scrape"; "crawl"; "search"] →
  Forall (λ doc, is_object doc = false) docs →
  documents m docs = Return [].
Proof.
  intros Hm Hdocs. induction Hdocs as [|doc rest Hdoc _ IH]; [done|].
  rewrite documents_skip; [done|]. unfold page_content_of.
  rewrite (page_mode_not_plain _ Hm). by destruct doc.
Qed.

Lemma X11_non_object_items_dropped_witness :
  "search" ∈ ["scrape"; "crawl"; "search"] ∧
  documents "search"
    [VDict {[ "markdown" := VStr "hit" ]}; VStr "https://firecrawl.dev"]
  = Return [].
Proof.
  assert ("search" ∈ ["scrape"; "crawl"; "search"]) as Hm
    by (rewrite !elem_of_cons; tauto).
  split; [exact Hm|].
  apply (X11_non_object_items_dropped "search" _ Hm). repeat constructor.
Defined.

Lemma metadata_of_cases m doc :
  metadata_of m doc = VDict ∅ ∨
  (truthy (metadata_of m doc) = true ∧
   field doc "metadata" = Some (metadata_of m doc)).
Proof.
  unfold metadata_of.
  destruct (bool_decide (m = "map") || bool_decide (m = "extract")); [by left|].
  rewrite getattr_field. unfold py_or.
  destruct (field doc "metadata") as [v|]; simpl.
  - destruct (truthy v) eqn:Hv; [right|left]; done.
  - by left.
Qed.

(** X12. The metadata of a document is never null: it is the empty
    mapping, or it is the metadata attribute of one of the items and is
    not empty. *)
Theorem X12_metadata_never_null (m : string) (docs : list value)
    (out : list Document) (d : Document) :
  documents m docs = Return out → d ∈ out →
  VDict (metadata d) ≠ VNone ∧
  (metadata d = ∅ ∨
   (truthy (VDict (metadata d)) = true ∧
    ∃ doc, doc ∈ docs ∧ field doc "metadata" = Some (VDict (metadata d)))).
Proof.
  intros Hout Hd. split; [done|]. apply documents_Return in Hout.
  destruct (emitted_elem _ _ _ _ Hout Hd) as (doc & Hdoc & _ & Hmd).
  apply list_elem_of_filter in Hdoc as [_ Hdoc].
  destruct (metadata_of_cases m doc) as [Hempty|[Ht Hfield]].
  - left. rewrite Hmd in Hempty. by injection Hempty.
  - right. rewrite Hmd in Ht, Hfield. split; [done|]. by exists doc.
Qed.

Lemma X12_metadata_never_null_witness :
  documents "crawl" [item [("markdown", VStr "x"); ("metadata", VNone)]] =
    Return [{| page_content := "x"; metadata := ∅ |}] ∧
  VDict (metadata {| page_content := "x"; metadata := ∅ |}) ≠ VNone.
Proof.
  split; [reflexivity|].
  refine (proj1 (X12_metadata_never_null "crawl"
                   [item [("markdown", VStr "x"); ("metadata", VNone)]]
                   _ {| page_content := "x"; metadata := ∅ |} eq_refl _)).
  apply list_elem_of_here.
Defined.
